(** * HW11.PY: three solvers for one boundary-value problem

    The program solves  y'' + (x+1) y' - 2 y = (1 - x^2) e^(-x),
    y(0) = 1, y(1) = 2  on a uniform grid, by a shooting method, by
    central finite differences and by a least-squares fit of a cubic.

    The embedding keeps the data of the source: Python floats and
    NumPy float64 arrays are binary64 numbers ([PrimFloat.float]) and
    lists of them, a 2-d array is a list of rows, Python exceptions are
    values of [exn] threaded through an error monad, and the console
    and figure output of the script is a trace of events.

    Library routines the script calls but does not define (libm's
    [exp] and [pow], NumPy's reduction, and SciPy's [solve_ivp],
    [root_scalar], [minimize] and [solve]) are the fields of the class
    [Lib]; the functions of the source are defined over any instance.
    What the proofs need from a routine is stated as a named contract
    and taken as a hypothesis where it is used.  [RefLib] is an
    executable instance on which the contracts are proved. *)

From Stdlib Require Import ZArith List Floats Uint63 Lia Bool String.
From Stdlib Require Import FunctionalExtensionality.
From stdpp Require Import base list.

Set Default Proof Using "Type".

(* ================================================================== *)
(** ** Python exceptions and the error monad *)

Module Py.

(** The exception classes that the script and its libraries raise. *)
Inductive exn : Type :=
| ZeroDivisionError (msg : string)
| ValueError (msg : string)
| OverflowError (msg : string)
| IndexError (msg : string)
| TypeError (msg : string)
| LinAlgError (msg : string).

Inductive result (A : Type) : Type :=
| Ok (a : A)
| Raise (e : exn).
Global Arguments Ok {A} a.
Global Arguments Raise {A} e.

Definition bind {A B} (m : result A) (k : A -> result B) : result B :=
  match m with
  | Ok a => k a
  | Raise e => Raise e
  end.

(** [range(lo, hi)] *)
Definition range (lo hi : nat) : list nat := seq lo (hi - lo).

(** A [for] loop whose body may raise: the state is threaded and the
    first exception ends the loop. *)
Fixpoint for_each {S I} (body : I -> S -> result S) (ixs : list I) (s : S)
  : result S :=
  match ixs with
  | [] => Ok s
  | i :: rest => bind (body i s) (for_each body rest)
  end.

(** Python indexing on a sequence of length [n]: a negative index
    counts from the end, anything outside [-n, n) raises. *)
Definition index (n : nat) (i : Z) : result nat :=
  if ((0 <=? i) && (i <? Z.of_nat n))%Z then Ok (Z.to_nat i)
  else if ((- Z.of_nat n <=? i) && (i <? 0))%Z then Ok (Z.to_nat (Z.of_nat n + i))
  else Raise (IndexError "index out of bounds").

Definition getitem {A} (l : list A) (i : Z) : result A :=
  bind (index (length l) i) (fun k =>
    match l !! k with
    | Some a => Ok a
    | None => Raise (IndexError "index out of bounds")
    end).

Definition setitem {A} (l : list A) (i : Z) (v : A) : result (list A) :=
  bind (index (length l) i) (fun k => Ok (<[k := v]> l)).

End Py.

Import Py.

Declare Scope py_scope.
Delimit Scope py_scope with py.
Notation "'do' x <- m ; k" := (Py.bind m (fun x => k))
  (at level 10, x name, m at level 100, k at level 200) : py_scope.
Notation "'do' ' p <- m ; k" :=
  (Py.bind m (fun x => match x with p => k end))
  (at level 10, p pattern, m at level 100, k at level 200) : py_scope.
Open Scope py_scope.
Open Scope float_scope.

(* ================================================================== *)
(** ** binary64 constants and conversions *)

Module F64.

(** The literals of the source, as the binary64 numbers Python reads. *)
Definition c0_1 : float := 0x1.999999999999ap-4.      (* 0.1   *)
Definition c1e_8 : float := 0x1.5798ee2308c3ap-27.    (* 1e-8  *)

(** Other step sizes at which the grid is examined. *)
Definition c0_3 : float := 0x1.3333333333333p-2.      (* 0.3   *)

Definition of_nat (n : nat) : float :=
  PrimFloat.of_uint63 (Uint63.of_Z (Z.of_nat n)).

(** [math.ceil] of a finite number as an integer; [None] on NaN and
    on the infinities. *)
Definition ceil (x : float) : option Z :=
  match Prim2SF x with
  | S754_zero _ => Some 0%Z
  | S754_finite s m e =>
      let v := if s then Z.neg m else Z.pos m in
      Some (if (0 <=? e)%Z then v * 2 ^ e
            else - ((- v) / 2 ^ (- e)))%Z
  | S754_infinity _ => None
  | S754_nan => None
  end.

(** [math.floor], likewise. *)
Definition floor (x : float) : option Z :=
  match Prim2SF x with
  | S754_zero _ => Some 0%Z
  | S754_finite s m e =>
      let v := if s then Z.neg m else Z.pos m in
      Some (if (0 <=? e)%Z then v * 2 ^ e else v / 2 ^ (- e))%Z
  | S754_infinity _ => None
  | S754_nan => None
  end.

(** Python's [a / b] on floats raises on a zero divisor. *)
Definition truediv (a b : float) : result float :=
  if b =? 0 then Raise (ZeroDivisionError "float division by zero")
  else Ok (a / b).

(** Neither NaN nor infinite. *)
Definition finite (x : float) : bool :=
  match Prim2SF x with
  | S754_zero _ | S754_finite _ _ _ => true
  | S754_infinity _ | S754_nan => false
  end.

(** Both strictly positive or both strictly negative. *)
Definition same_sign (u v : float) : bool :=
  ((0 <? u) && (0 <? v)) || ((u <? 0) && (v <? 0)).


End F64.

(* ================================================================== *)
(** ** NumPy: the array primitives the script uses *)

Module Np.

Definition intp_max : Z := (2 ^ 63 - 1)%Z.
Definition intp_min : Z := (- 2 ^ 63)%Z.

(** The conversion of a length to the index type.  The range check
    of [arange] compares doubles and lets [2 ^ 63] through, one more
    than the largest index; converted (the conversion of x86-64), that
    one value comes out as the smallest index. *)
Definition to_intp (len : Z) : Z :=
  if (intp_max <? len)%Z then intp_min else len.

(** An array of float64 entries is refused when its size in bytes
    does not fit the index type: from [2 ^ 60] entries on. *)
Definition too_big : Z := (2 ^ 60)%Z.


(** Entries 2, 3, ... of an [arange] buffer: [start + i * delta]. *)
Definition fill (start delta : float) (len : nat) : list float :=
  map (fun i => start + F64.of_nat i * delta) (seq 2 (len - 2)).

(** [np.arange(start, stop, step)] on floats.  The number of entries
    is [ceil((stop - start) / step)], computed in binary64 by
    Python's division, so a zero step raises.  A length that is NaN
    raises ValueError, and so does a length outside the range of the
    index type (the OverflowError of the length computation is turned
    into ValueError, Maximum allowed size exceeded).  A length that is
    not positive gives the empty array.  An array of [too_big] entries
    or more is refused.  Entry 0 is [start], entry 1 is
    [start + step], and entry [i >= 2] is [start + i * delta] with
    [delta] the difference of the first two entries.

    Below [too_big] the buffer is allocated if the machine has the
    memory for it.  The model has no memory: it gives the array, where
    a machine that cannot hold it raises MemoryError.  What is proved
    of grids that are returned for every step is therefore stated for
    lengths up to [modest]. *)
Definition arange (start stop step : float) : result (list float) :=
  do value <- F64.truediv (stop - start) step;
  match F64.ceil value with
  | None =>
      if PrimFloat.is_nan value
      then Raise (ValueError "arange: cannot compute length")
      else Raise (ValueError "Maximum allowed size exceeded")
  | Some c =>
      if ((c <? intp_min) || (intp_max + 1 <? c))%Z
      then Raise (ValueError "Maximum allowed size exceeded")
      else
        let len := to_intp c in
        if (len <=? 0)%Z then Ok []
        else if (too_big <=? len)%Z
        then Raise (ValueError
          "array is too big; `arr.size * arr.dtype.itemsize` is larger than the maximum possible size.")
        else
          let n := Z.to_nat len in
          let next := start + step in
          Ok (firstn n [start; next] ++ fill start (next - start) n)
  end.

(** [np.zeros(n)] and [np.zeros((n, m))]. *)
Definition zeros (n : nat) : list float := repeat 0 n.
Definition zeros2 (n m : nat) : list (list float) := repeat (zeros m) n.

(** [A[i, j] = v] on a 2-d array. *)
Definition setitem2 (A : list (list float)) (i j : Z) (v : float)
  : result (list (list float)) :=
  do row <- Py.getitem A i;
  do row' <- Py.setitem row j v;
  Py.setitem A i row'.

(** [np.diff(x)] *)
Fixpoint diff (x : list float) : list float :=
  match x with
  | a :: (b :: _) as rest => (b - a) :: diff rest
  | _ => []
  end.

(** Element-wise binary operation on two arrays of one shape. *)
Fixpoint zip_with (f : float -> float -> float) (u v : list float)
  : list float :=
  match u, v with
  | a :: u', b :: v' => f a b :: zip_with f u' v'
  | _, _ => []
  end.

End Np.

(* ================================================================== *)
(** ** SciPy: the result objects of the routines the script calls *)

Module Sp.

(** The attribute [y] of an [OdeResult] for a system of two
    equations.  When at least one sample was stored it is an array of
    two rows, held here by its columns, the first one apart: a column
    is the pair [(y, y')] at one abscissa.  When no sample was stored
    [solve_ivp] leaves the empty Python list there. *)
Inductive ode_values : Type :=
| no_values
| values (first : float * float) (rest : list (float * float)).

Definition columns (v : ode_values) : list (float * float) :=
  match v with
  | no_values => []
  | values c cs => c :: cs
  end.

(** The values for a list of stored columns. *)
Definition stored (cols : list (float * float)) : ode_values :=
  match cols with
  | [] => no_values
  | c :: cs => values c cs
  end.

(** [y[i]]: a row of the array; on the empty list, [IndexError]. *)
Definition row (v : ode_values) (i : Z) : result (list float) :=
  match v with
  | no_values => Raise (IndexError "list index out of range")
  | values c cs =>
      do k <- Py.index 2 i;
      Ok (map (if Nat.eqb k 0 then fst else snd) (c :: cs))
  end.

(** [y[i, j]]: an entry of the array; a list does not take a pair of
    indices, [TypeError]. *)
Definition entry (v : ode_values) (i j : Z) : result float :=
  match v with
  | no_values =>
      Raise (TypeError "list indices must be integers or slices, not tuple")
  | values _ _ => do r <- row v i; Py.getitem r j
  end.

(** The [OdeResult] of [solve_ivp]: the sample abscissae [t], the
    stored values [y], and [status] (0 when the end of the interval
    was reached, -1 when the integration step failed). *)
Record OdeResult : Type := {
  ode_t : list float;
  ode_y : ode_values;
  ode_status : Z
}.

Inductive method : Type := brentq | brenth | bisect | ridder | toms748.

Record RootResults : Type := {
  root : float;
  converged : bool
}.

(** The tolerances of [brentq] when the caller passes none:
    [xtol = 2e-12] and [rtol = 4 * eps]. *)
Definition brentq_xtol : float := 0x1.19799812dea11p-39.
Definition brentq_rtol : float := 0x1p-50.

(** A keyword argument left out takes the default of the routine. *)
Definition keyword (given : option float) (default : float) : float :=
  match given with
  | Some v => v
  | None => default
  end.

(** The ['type'] of a constraint: ['eq'] or ['ineq']. *)
Inductive ctype : Type := type_eq | type_ineq.

(** One entry of [constraints]: [{'type': ..., 'fun': ...}]. *)
Record constraint : Type := {
  c_type : ctype;
  c_fun : list float -> result float
}.

Record OptimizeResult : Type := {
  opt_x : list float;
  opt_success : bool;
  opt_status : Z
}.

End Sp.

Import Sp.

(** The library routines the script relies on.  [pow] is the [**]
    operator and [np_sum] the reduction [ndarray.sum].  On Python
    floats [h ** 2] raises when the square overflows; the loop that
    computes it runs only on grids of three or more points, which
    steps that large do not give, so [pow] is a total function
    here. *)
Class Lib : Type := {
  exp : float -> float;
  pow : float -> float -> float;
  np_sum : list float -> float;
  solve_ivp :
    (float -> float * float -> float * float) ->
    float * float -> float * float -> list float -> float -> float ->
    result OdeResult;
  root_scalar :
    (float -> result float) -> float * float -> method ->
    option float -> option float -> result RootResults;
  minimize :
    (list float -> result float) -> list float -> constraint ->
    result OptimizeResult;
  solve : list (list float) -> list float -> result (list float)
}.

(* ================================================================== *)
(** ** The script *)

Section HW11.

Context {L : Lib}.

(** *** (a) Shooting method *)

Definition ode_system (x : float) (Y : float * float) : float * float :=
  let '(y, dy) := Y in
  let d2y := - (x + 1) * dy + 2 * y + (1 - pow x 2) * exp (- x) in
  (dy, d2y).

Definition solve_shooting (alpha : float) (x_eval : list float)
  : result OdeResult :=
  solve_ivp ode_system (0, 1) (1, alpha) x_eval F64.c1e_8 F64.c1e_8.

(** The closure [boundary_residual] of [shooting_method], with the
    captured [x_eval] as a parameter: [sol.y[0, -1] - 2]. *)
Definition boundary_residual (x_eval : list float) (alpha : float)
  : result float :=
  do sol <- solve_shooting alpha x_eval;
  do y_end <- entry (ode_y sol) 0 (-1);
  Ok (y_end - 2).

Definition shooting_method (h : float) : result (list float * list float) :=
  do x_eval <- Np.arange 0 (1 + h) h;
  do sol <- root_scalar (boundary_residual x_eval) (-10, 10) brentq
              None None;
  let best_alpha := root sol in
  do final_sol <- solve_shooting best_alpha x_eval;
  do y <- row (ode_y final_sol) 0;
  Ok (x_eval, y).

(** *** (b) Finite-difference method *)

(** The body of the loop over the interior rows. *)
Definition fd_row (h : float) (x : list float) (i : nat)
    (Ab : list (list float) * list float)
  : result (list (list float) * list float) :=
  let '(A, b) := Ab in
  let i := Z.of_nat i in
  do xi <- Py.getitem x i;
  let h2 := pow h 2 in
  do q <- F64.truediv 1 h2;
  do A <- Np.setitem2 A i (i - 1) (q + (xi + 1) / (2 * h));
  do q <- F64.truediv (-2) h2;
  do A <- Np.setitem2 A i i (q - 2);
  do q <- F64.truediv 1 h2;
  do A <- Np.setitem2 A i (i + 1) (q - (xi + 1) / (2 * h));
  do b <- Py.setitem b i ((1 - pow xi 2) * exp (- xi));
  Ok (A, b).

(** The linear system that [finite_difference_method] builds on the
    grid [x], before it is handed to [solve]. *)
Definition fd_system (h : float) (x : list float)
  : result (list (list float) * list float) :=
  let n := length x in
  let A := Np.zeros2 n n in
  let b := Np.zeros n in
  do A <- Np.setitem2 A 0 0 1;
  do b <- Py.setitem b 0 1;
  do A <- Np.setitem2 A (-1) (-1) 1;
  do b <- Py.setitem b (-1) 2;
  Py.for_each (fd_row h x) (Py.range 1 (n - 1)) (A, b).

Definition finite_difference_method (h : float)
  : result (list float * list float) :=
  do x <- Np.arange 0 (1 + h) h;
  do '(A, b) <- fd_system h x;
  do y <- solve A b;
  Ok (x, y).

(** *** (c) Variational method *)

Definition trial (x a b c : float) : float :=
  1 + a * x + b * pow x 2 + c * pow x 3.

(** [a, b, c = params] and [trial(.., *p)]: exactly three values. *)
Definition unpack3 (e : exn) (p : list float)
  : result (float * float * float) :=
  match p with
  | [a; b; c] => Ok (a, b, c)
  | _ => Raise e
  end.

(** [np.trapz(y, x)]: [(d * (y[1:] + y[:-1]) / 2.0).sum()] with
    [d = np.diff(x)]. *)
Definition trapz (y x : list float) : float :=
  np_sum
    (map (fun t => t / 2)
       (Np.zip_with PrimFloat.mul (Np.diff x)
          (Np.zip_with PrimFloat.add (tail y) (removelast y)))).

(** One entry of the array [r] in [residual_squared]; the array
    expressions of the source act entry by entry. *)
Definition residual (a b c x : float) : float :=
  let y := trial x a b c in
  let dy := a + 2 * b * x + 3 * c * pow x 2 in
  let d2y := 2 * b + 6 * c * x in
  d2y + (x + 1) * dy - 2 * y - (1 - pow x 2) * exp (- x).

Definition residual_squared (x : list float) (params : list float)
  : result float :=
  do '(a, b, c) <-
    unpack3 (ValueError "wrong number of values to unpack") params;
  let r := map (residual a b c) x in
  Ok (trapz (map (fun ri => pow ri 2) r) x).

(** [cons]: the boundary condition [y(1) = 2].  The source calls
    [trial] at the integer 1, so that its [1 ** 2] and [1 ** 3] are
    integer powers; they are [pow 1 2] and [pow 1 3] here. *)
Definition cons : constraint :=
  {| c_type := type_eq;
     c_fun := fun p =>
       do '(a, b, c) <-
         unpack3 (TypeError "trial() takes 4 positional arguments") p;
       Ok (trial 1 a b c - 2) |}.

Definition variational_method (h : float)
  : result (list float * list float) :=
  do x <- Np.arange 0 (1 + h) h;
  do res <- minimize (residual_squared x) [0; 0; 0] cons;
  do '(a, b, c) <-
    unpack3 (TypeError "trial() takes 4 positional arguments") (opt_x res);
  Ok (x, map (fun xi => trial xi a b c) x).

End HW11.

(* ================================================================== *)
(** ** Console and figure output *)

Module Io.

(** What the script shows, in order: the two header lines, one
    formatted row per grid point, and the calls that build the
    figure. *)
Inductive event : Type :=
| PrintHeader
| PrintRule
| PrintRow (x y_shoot y_fd y_var : float)
| Figure
| Plot (x y : list float) (fmt label : string)
| XLabel (s : string)
| YLabel (s : string)
| Title (s : string)
| Legend
| Grid
| Show.

(** A computation that appends to the output and may raise. *)
Definition io (A : Type) : Type := list event -> list event * result A.

Definition ret {A} (a : A) : io A := fun tr => (tr, Ok a).

Definition bind {A B} (m : io A) (k : A -> io B) : io B :=
  fun tr =>
    match m tr with
    | (tr', Ok a) => k a tr'
    | (tr', Raise e) => (tr', Raise e)
    end.

Definition lift {A} (r : result A) : io A := fun tr => (tr, r).

Definition emit (e : event) : io unit := fun tr => (tr ++ [e], Ok tt).

Fixpoint for_each {I} (body : I -> io unit) (ixs : list I) : io unit :=
  match ixs with
  | [] => ret tt
  | i :: rest => bind (body i) (fun _ => for_each body rest)
  end.

(** Running a script from an empty console: its output, and how it
    ended. *)
Definition run {A} (m : io A) : list event * result A := m [].

(** [plt.plot(x, y, fmt, label=...)] refuses arrays of different
    lengths. *)
Definition plot (x y : list float) (fmt label : string) : io unit :=
  if Nat.eqb (length x) (length y) then emit (Plot x y fmt label)
  else lift (Raise (ValueError "x and y must have same first dimension")).

End Io.

Notation "'exec' x <- m ; k" := (Io.bind m (fun x => k))
  (at level 10, x name, m at level 100, k at level 200) : py_scope.
Notation "'exec' ' p <- m ; k" :=
  (Io.bind m (fun x => match x with p => k end))
  (at level 10, p pattern, m at level 100, k at level 200) : py_scope.

Section Script.

Context {L : Lib}.

(** The body of the loop that prints the table. *)
Definition print_row (x_fd y_shoot y_fd y_var : list float) (i : nat)
  : Io.io unit :=
  let i := Z.of_nat i in
  exec a <- Io.lift (Py.getitem x_fd i);
  exec b <- Io.lift (Py.getitem y_shoot i);
  exec c <- Io.lift (Py.getitem y_fd i);
  exec d <- Io.lift (Py.getitem y_var i);
  Io.emit (Io.PrintRow a b c d).

Definition print_results (x_fd y_shoot y_fd y_var : list float)
  : Io.io unit :=
  exec _ <- Io.emit Io.PrintHeader;
  exec _ <- Io.emit Io.PrintRule;
  Io.for_each (print_row x_fd y_shoot y_fd y_var)
    (Py.range 0 (length x_fd)).

(** The module body, for a step size [h]. *)
Definition main (h : float) : Io.io unit :=
  exec '(x_shoot, y_shoot) <- Io.lift (shooting_method h);
  exec '(x_fd, y_fd) <- Io.lift (finite_difference_method h);
  exec '(x_var, y_var) <- Io.lift (variational_method h);
  exec _ <- print_results x_fd y_shoot y_fd y_var;
  exec _ <- Io.emit Io.Figure;
  exec _ <- Io.plot x_shoot y_shoot "b.-" "Shooting Method";
  exec _ <- Io.plot x_fd y_fd "r.--" "Finite Difference";
  exec _ <- Io.plot x_var y_var "g-" "Variational Method";
  exec _ <- Io.emit (Io.XLabel "x");
  exec _ <- Io.emit (Io.YLabel "y(x)");
  exec _ <- Io.emit (Io.Title "Comparison of Numerical Methods");
  exec _ <- Io.emit Io.Legend;
  exec _ <- Io.emit Io.Grid;
  Io.emit Io.Show.

(** The script as it is run: [h = 0.1]. *)
Definition script : Io.io unit := main F64.c0_1.

End Script.

(* ================================================================== *)
(** ** An executable instance of the library

    Plain textbook versions of the routines, on which the script can
    be evaluated and on which the contracts used below are proved:
    Gaussian elimination with partial pivoting for [solve] (what
    LAPACK's [gesv] does), a fixed-step Runge-Kutta sampler for
    [solve_ivp], bisection for [root_scalar], and one Newton step on
    the Lagrange conditions for [minimize] (exact for a quadratic
    objective with an affine constraint, which is what the script
    gives it). *)

Module Ref.

(** [e^x]: a Taylor polynomial of [x / 256], squared eight times. *)
Definition exp (x : float) : float :=
  let y := x / 256 in
  let p :=
    fold_right (fun k acc => 1 + y * acc / F64.of_nat k) 1
      (seq 1 12) in
  Nat.iter 8 (fun t => t * t) p.

(** [x ** k] for the small whole exponents of the script; NaN
    otherwise. *)
Definition pow (x y : float) : float :=
  match F64.floor y with
  | Some k =>
      if ((0 <=? k) && (k <? 64))%Z && (F64.of_nat (Z.to_nat k) =? y)
      then Nat.iter (Z.to_nat k) (fun t => t * x) 1
      else nan
  | None => nan
  end.

Definition np_sum (l : list float) : float :=
  fold_left PrimFloat.add l 0.

(** *** [solve] *)

(** Index of the first row whose leading entry is largest in
    absolute value, with that value. *)
Fixpoint pivot (rows : list (list float)) (i : nat) (best : nat * float)
  : nat * float :=
  match rows with
  | [] => best
  | r :: rest =>
      let a := abs (hd 0 r) in
      pivot rest (S i) (if snd best <? a then (i, a) else best)
  end.

(** Elimination on the augmented rows [A | b], then back
    substitution; [n] is the number of unknowns left. *)
Fixpoint eliminate (n : nat) (rows : list (list float))
  : result (list float) :=
  match n with
  | O => Ok []
  | S n' =>
      let p := fst (pivot rows 0 (0%nat, -1)) in
      match rows !! p, rows !! 0%nat with
      | Some prow, Some r0 =>
          let piv := hd 0 prow in
          if piv =? 0 then Raise (LinAlgError "Matrix is singular.")
          else
            let others := tail (<[p := r0]> rows) in
            let reduce r :=
              let f := hd 0 r / piv in
              Np.zip_with (fun a b => a - f * b) (tail r) (tail prow) in
            do xs <- eliminate n' (map reduce others);
            let rhs := List.last prow 0 in
            let s :=
              fold_left (fun acc cx => acc - fst cx * snd cx)
                (combine (tail prow) xs) rhs in
            Ok (s / piv :: xs)
      | _, _ => Raise (ValueError "Input a needs to be a square matrix.")
      end
  end.

Definition solve (A : list (list float)) (b : list float)
  : result (list float) :=
  let n := length b in
  if Nat.eqb (length A) n && forallb (fun r => Nat.eqb (length r) n) A
  then eliminate n (map (fun rb => fst rb ++ [snd rb]) (combine A b))
  else Raise (ValueError "Input a needs to be a square matrix.").

(** *** [solve_ivp] *)

Definition axpy (a : float) (u v : float * float) : float * float :=
  (fst v + a * fst u, snd v + a * snd u).

Definition rk4_step (f : float -> float * float -> float * float)
    (t dt : float) (Y : float * float) : float * float :=
  let k1 := f t Y in
  let k2 := f (t + dt / 2) (axpy (dt / 2) k1 Y) in
  let k3 := f (t + dt / 2) (axpy (dt / 2) k2 Y) in
  let k4 := f (t + dt) (axpy dt k3 Y) in
  axpy (dt / 6) (axpy 2 k3 (axpy 2 k2 (axpy 1 k1 k4))) Y.

(** Four steps from [t] to [t']. *)
Definition advance (f : float -> float * float -> float * float)
    (t t' : float) (Y : float * float) : float * float :=
  let dt := (t' - t) / 4 in
  snd (Nat.iter 4 (fun tY => (fst tY + dt, rk4_step f (fst tY) dt (snd tY)))
         (t, Y)).

Fixpoint sample (f : float -> float * float -> float * float)
    (t : float) (Y : float * float) (t_eval : list float)
  : list (float * float) :=
  match t_eval with
  | [] => []
  | t' :: rest =>
      let Y' := advance f t t' Y in
      Y' :: sample f t' Y' rest
  end.

Definition solve_ivp (f : float -> float * float -> float * float)
    (t_span : float * float) (y0 : float * float) (t_eval : list float)
    (rtol atol : float) : result OdeResult :=
  let '(t0, tf) := t_span in
  if forallb (fun t => (t0 <=? t) && (t <=? tf)) t_eval
  then
    let ys := sample f t0 y0 t_eval in
    Ok {| ode_t := t_eval;
          ode_y := stored ys;
          ode_status := 0 |}
  else Raise (ValueError "Values in t_eval are not within t_span.").

(** *** [root_scalar] *)

(** Halving of a bracket [a, b] with a sign change, until it is
    shorter than [tol] or [n] halvings are done. *)
Fixpoint bisection (n : nat) (f : float -> result float)
    (a b fa tol : float) : result RootResults :=
  let m := (a + b) / 2 in
  match n with
  | O => Ok {| root := m; converged := false |}
  | S n' =>
      if abs (b - a) <=? tol then Ok {| root := m; converged := true |}
      else
        do fm <- f m;
        if fm =? 0 then Ok {| root := m; converged := true |}
        else if F64.same_sign fa fm then bisection n' f m b fm tol
        else bisection n' f a m fa tol
  end.

Definition root_scalar (f : float -> result float)
    (bracket : float * float) (m : method) (xtol rtol : option float)
  : result RootResults :=
  let '(a, b) := bracket in
  do fa <- f a;
  do fb <- f b;
  if fa =? 0 then Ok {| root := a; converged := true |}
  else if fb =? 0 then Ok {| root := b; converged := true |}
  else if F64.same_sign fa fb
  then Raise (ValueError "f(a) and f(b) must have different signs")
  else bisection 100 f a b fa (keyword xtol brentq_xtol).

(** *** [minimize] *)

(** [x + s * e_i] *)
Definition bump (x : list float) (i : nat) (s : float) : list float :=
  match x !! i with
  | Some v => <[i := v + s]> x
  | None => x
  end.

Fixpoint mapM {A B} (f : A -> result B) (l : list A) : result (list B) :=
  match l with
  | [] => Ok []
  | a :: rest => do b <- f a; do bs <- mapM f rest; Ok (b :: bs)
  end.

(** Gradient and Hessian of the objective and gradient of the
    constraint at [x0] by differences of step 1, then the linear
    system of the Lagrange conditions for the step [d]. *)
Definition minimize (J : list float -> result float) (x0 : list float)
    (c : constraint) : result OptimizeResult :=
  let n := length x0 in
  let idx := seq 0 n in
  do J0 <- J x0;
  do c0 <- c_fun c x0;
  do Jp <- mapM (fun i => J (bump x0 i 1)) idx;
  do Jm <- mapM (fun i => J (bump x0 i (-1))) idx;
  do a <- mapM (fun i => do ci <- c_fun c (bump x0 i 1); Ok (ci - c0)) idx;
  do H <- mapM (fun i =>
            mapM (fun j =>
              if Nat.eqb i j
              then Ok (nth i Jp 0 - 2 * J0 + nth i Jm 0)
              else
                do Jij <- J (bump (bump x0 i 1) j 1);
                Ok (Jij - nth i Jp 0 - nth j Jp 0 + J0)) idx) idx;
  let g := Np.zip_with (fun p m => (p - m) / 2) Jp Jm in
  let K := map (fun Ha => fst Ha ++ [snd Ha]) (combine H a) ++ [a ++ [0]] in
  let rhs := map PrimFloat.opp g ++ [- c0] in
  do d <- solve K rhs;
  Ok {| opt_x := Np.zip_with PrimFloat.add x0 (firstn n d);
        opt_success := true;
        opt_status := 0 |}.

(** A minimizer that gives up at once: the starting point, reported
    as a failure (status 9, iteration limit reached). *)
Definition minimize_gives_up (J : list float -> result float)
    (x0 : list float) (c : constraint) : result OptimizeResult :=
  Ok {| opt_x := x0; opt_success := false; opt_status := 9 |}.

(** An integrator that makes no progress: every sample is the
    initial state. *)
Definition solve_ivp_stalled
    (f : float -> float * float -> float * float)
    (t_span : float * float) (y0 : float * float) (t_eval : list float)
    (rtol atol : float) : result OdeResult :=
  Ok {| ode_t := t_eval;
        ode_y := stored (map (fun _ => y0) t_eval);
        ode_status := 0 |}.

End Ref.

#[local] Instance RefLib : Lib := {|
  exp := Ref.exp;
  pow := Ref.pow;
  np_sum := Ref.np_sum;
  solve_ivp := Ref.solve_ivp;
  root_scalar := Ref.root_scalar;
  minimize := Ref.minimize;
  solve := Ref.solve
|}.

(** The reference library with an integrator that makes no progress,
    and with a minimizer that reports failure. *)
#[local] Instance StalledLib : Lib := {|
  exp := Ref.exp;
  pow := Ref.pow;
  np_sum := Ref.np_sum;
  solve_ivp := Ref.solve_ivp_stalled;
  root_scalar := Ref.root_scalar;
  minimize := Ref.minimize;
  solve := Ref.solve
|}.

#[local] Instance GivesUpLib : Lib := {|
  exp := Ref.exp;
  pow := Ref.pow;
  np_sum := Ref.np_sum;
  solve_ivp := Ref.solve_ivp;
  root_scalar := Ref.root_scalar;
  minimize := Ref.minimize_gives_up;
  solve := Ref.solve
|}.

(* ================================================================== *)
(** ** What is assumed of the library routines *)

Section Contracts.

Context (L : Lib).

(** [solve_ivp]: a run that reached the end of the interval
    (status 0) stored the solution at every time of [t_eval]. *)
Definition solve_ivp_samples : Prop :=
  forall f span y0 t_eval rtol atol sol,
    solve_ivp f span y0 t_eval rtol atol = Ok sol ->
    ode_status sol = 0%Z ->
    ode_t sol = t_eval /\
    length (columns (ode_y sol)) = length t_eval.

(** The integrations of this problem reach the end of the interval. *)
Definition integration_completes : Prop :=
  forall alpha x_eval sol,
    solve_shooting alpha x_eval = Ok sol -> ode_status sol = 0%Z.

(** The error of [brentq] on a bracket without a sign change. *)
Definition NoRootInBracket : exn :=
  ValueError "f(a) and f(b) must have different signs".

(** [root_scalar] with [brentq] evaluates the function at both ends
    of the bracket and refuses values of one sign. *)
Definition root_scalar_bracket : Prop :=
  forall f a b xtol rtol fa fb,
    f a = Ok fa -> f b = Ok fb -> F64.same_sign fa fb = true ->
    root_scalar f (a, b) brentq xtol rtol = Raise NoRootInBracket.

(** [root_scalar] with [brentq] and no tolerance given runs with the
    defaults of that routine. *)
Definition root_scalar_defaults : Prop :=
  forall f bracket,
    root_scalar f bracket brentq None None =
    root_scalar f bracket brentq (Some brentq_xtol) (Some brentq_rtol).

(** [solve] returns one unknown per equation. *)
Definition solve_shape : Prop :=
  forall A b y, solve A b = Ok y -> length y = length b.

(** [0 ** 2] and [0 ** 3] are zero. *)
Definition pow_zero : Prop := pow 0 2 = 0 /\ pow 0 3 = 0.

End Contracts.

(* ================================================================== *)
(** ** The solvers in the words of the specification

    Second definitions, written from the text of the specification
    (sections 4.3 to 4.5), to be compared with the functions above. *)

Module Spec.
Section Spec.

Context {L : Lib}.

(** *** ShootingSolver *)

(** The right-hand side of the first-order system: the derivative
    pair [(y', y'')]. *)
Definition rhs (x : float) (Y : float * float) : float * float :=
  (snd Y, - (x + 1) * snd Y + 2 * fst Y + (1 - pow x 2) * exp (- x)).

(** [integrate(alpha, grid)]: from [x = 0] with state [(1, alpha)],
    tolerances 1e-8, sampled at the grid points; the y-values. *)
Definition integrate (alpha : float) (grid : list float)
  : result (list float) :=
  do sol <- solve_ivp rhs (0, 1) (1, alpha) grid F64.c1e_8 F64.c1e_8;
  Ok (map fst (columns (ode_y sol))).

(** The y-value stored for the abscissa [x0]. *)
Fixpoint y_at (grid ys : list float) (x0 : float) : result float :=
  match grid, ys with
  | t :: grid', v :: ys' => if t =? x0 then Ok v else y_at grid' ys' x0
  | _, _ => Raise (IndexError "index out of bounds")
  end.

(** [residual(alpha) = integrate(alpha, grid).y_at(1) - 2] *)
Definition shooting_residual (grid : list float) (alpha : float)
  : result float :=
  do ys <- integrate alpha grid;
  do v <- y_at grid ys 1;
  Ok (v - 2).

(** A bracketing root finder on [-10, 10] run to the tolerances
    [xtol] and [rtol], then the integration at the root. *)
Definition shooting (xtol rtol : float) (grid : list float)
  : result (list float) :=
  do r <- root_scalar (shooting_residual grid) (-10, 10) brentq
            (Some xtol) (Some rtol);
  integrate (root r) grid.

(** *** FiniteDifferenceSolver *)

(** Entry [(i, j)] of the matrix on a grid of [n + 1] points. *)
Definition fd_A (h : float) (x : list float) (i j : nat) : float :=
  let n := (length x - 1)%nat in
  let xi := nth i x 0 in
  if Nat.eqb i 0 || Nat.eqb i n then (if Nat.eqb j i then 1 else 0)
  else if Nat.eqb j (i - 1) then 1 / pow h 2 + (xi + 1) / (2 * h)
  else if Nat.eqb j i then (-2) / pow h 2 - 2
  else if Nat.eqb j (i + 1) then 1 / pow h 2 - (xi + 1) / (2 * h)
  else 0.

(** Entry [i] of the right-hand side. *)
Definition fd_b (x : list float) (i : nat) : float :=
  let n := (length x - 1)%nat in
  let xi := nth i x 0 in
  if Nat.eqb i 0 then 1
  else if Nat.eqb i n then 2
  else (1 - pow xi 2) * exp (- xi).

Definition fd_matrix (h : float) (x : list float) : list (list float) :=
  map (fun i => map (fd_A h x i) (seq 0 (length x))) (seq 0 (length x)).

Definition fd_vector (x : list float) : list float :=
  map (fd_b x) (seq 0 (length x)).

(** *** VariationalSolver *)

(** The trial family and its residual, from the analytic
    derivatives of the trial. *)
Definition y (a b c x : float) : float :=
  1 + a * x + b * pow x 2 + c * pow x 3.
Definition y' (a b c x : float) : float :=
  a + 2 * b * x + 3 * c * pow x 2.
Definition y'' (a b c x : float) : float :=
  2 * b + 6 * c * x.
Definition r (a b c x : float) : float :=
  y'' a b c x + (x + 1) * y' a b c x - 2 * y a b c x
  - (1 - pow x 2) * exp (- x).

(** The trapezoid rule for [f] on the grid: the sum over the
    intervals of width times mean of the end values. *)
Definition trapezoid (f : float -> float) (grid : list float) : float :=
  np_sum
    (map (fun i =>
            let x0 := nth i grid 0 in
            let x1 := nth (S i) grid 0 in
            (x1 - x0) * (f x1 + f x0) / 2)
       (seq 0 (length grid - 1))).

(** [J(a, b, c)]: the quadrature of [r(x)^2]. *)
Definition J (grid : list float) (p : list float) : result float :=
  match p with
  | [a; b; c] => Ok (trapezoid (fun x => pow (r a b c x) 2) grid)
  | _ => Raise (ValueError "wrong number of values to unpack")
  end.



End Spec.
End Spec.

(** The grid ends at the point 1 and every earlier point lies below. *)
Definition ends_at_one (x : list float) : Prop :=
  exists pre, x = pre ++ [1] /\ forallb (fun t => t <? 1) pre = true.



(** The arrays of [finite_difference_method] while the loop runs.
    Row [r] is pending when it is an interior row that the loop has
    not reached yet, the loop being about to run for index [k]; a
    pending row is still zero, every other row is final. *)
Definition pending (n k r : nat) : bool :=
  (0 <? r)%nat && (r <? n - 1)%nat && (k <=? r)%nat.

Definition A_at {L : Lib} (h : float) (x : list float) (k : nat)
  : list (list float) :=
  let n := length x in
  map (fun r => if pending n k r then Np.zeros n
                else map (Spec.fd_A h x r) (seq 0 n)) (seq 0 n).

Definition b_at {L : Lib} (x : list float) (k : nat) : list float :=
  let n := length x in
  map (fun r => if pending n k r then 0 else Spec.fd_b x r) (seq 0 n).

(** *** The table and the run of the script *)

(** The row of the table for the grid point [i]. *)
Definition table_row (x_fd y_shoot y_fd y_var : list float) (i : nat)
  : Io.event :=
  Io.PrintRow (nth i x_fd 0) (nth i y_shoot 0) (nth i y_fd 0) (nth i y_var 0).

(** The number of indices at which all four columns have a value. *)
Definition rows_available (x_fd y_shoot y_fd y_var : list float) : nat :=
  Nat.min (length x_fd)
    (Nat.min (length y_shoot) (Nat.min (length y_fd) (length y_var))).

(** The three calls of the module body, in their order. *)
Definition solvers {L : Lib} (h : float)
  : result ((list float * list float) * (list float * list float)
            * (list float * list float)) :=
  do s <- shooting_method h;
  do f <- finite_difference_method h;
  do v <- variational_method h;
  Ok (s, f, v).

(** A computation only adds to the output that is already there. *)
Definition appends {A} (m : Io.io A) : Prop :=
  forall tr, exists out, fst (m tr) = tr ++ out.

(** *** Step sizes 1/n *)

(** How the grid of the step [1 / n] ends: at 1 exactly with [n + 1]
    points, with [n + 1] points but short of 1, or with one point more
    and beyond 1. *)
Inductive grid_end : Type := ends_exact | ends_short | ends_beyond | ends_other.

Definition grid_end_of (n : nat) : grid_end :=
  let h := 1 / F64.of_nat n in
  match Np.arange 0 (1 + h) h with
  | Ok x =>
      if Nat.eqb (length x) (n + 1)
      then (if List.last x 0 =? 1 then ends_exact
            else if List.last x 0 <? 1 then ends_short else ends_other)
      else if Nat.eqb (length x) (n + 2) && (1 <? List.last x 0)
      then ends_beyond
      else ends_other
  | Raise _ => ends_other
  end.

Definition is_end (e : grid_end) (n : nat) : bool :=
  match e, grid_end_of n with
  | ends_exact, ends_exact | ends_short, ends_short
  | ends_beyond, ends_beyond | ends_other, ends_other => true
  | _, _ => false
  end.

(* ================================================================== *)
(** * Properties *)

(** ** The error monad *)

Lemma bind_ok_inv {A B} (m : result A) (k : A -> result B) (b : B) :
  Py.bind m k = Ok b -> exists a, m = Ok a /\ k a = Ok b.
Proof. destruct m as [a|e]; simpl; [eauto | discriminate]. Qed.

Lemma bind_assoc {A B C} (m : result A) (f : A -> result B)
    (g : B -> result C) :
  Py.bind (Py.bind m f) g = Py.bind m (fun a => Py.bind (f a) g).
Proof. destruct m; reflexivity. Qed.

Ltac inv_bind H :=
  let a := fresh "a" in
  let Ha := fresh "Ha" in
  apply bind_ok_inv in H; destruct H as (a & Ha & H).

Ltac inv_bind_as H a Ha :=
  apply bind_ok_inv in H; destruct H as (a & Ha & H).

(** ** Lists *)

Lemma lookup_map {A B} (f : A -> B) (l : list A) (i : nat) :
  map f l !! i = option_map f (l !! i).
Proof.
  revert i; induction l as [|a l IH]; intros [|i]; simpl; auto.
Qed.

Lemma lookup_repeat {A} (a : A) (n i : nat) :
  (i < n)%nat -> repeat a n !! i = Some a.
Proof.
  revert i; induction n as [|n IH]; intros [|i] Hi; simpl; try lia; auto.
  apply IH; lia.
Qed.

Lemma lookup_nth {A} (l : list A) (i : nat) (d : A) :
  (i < length l)%nat -> l !! i = Some (nth i l d).
Proof.
  revert i; induction l as [|a l IH]; intros [|i] Hi; simpl in *; try lia; auto.
  apply IH; lia.
Qed.

(** ** binary64 facts

    Special cases of the operations, read off their specification in
    [SpecFloat]. *)

Lemma Prim2SF_zero : Prim2SF 0 = S754_zero false.
Proof. reflexivity. Qed.









Lemma ltb_not_eqb (a b : float) : (a <? b) = true -> (a =? b) = false.
Proof.
  rewrite FloatAxioms.ltb_spec, FloatAxioms.eqb_spec. unfold SFltb, SFeqb.
  destruct (SFcompare (Prim2SF a) (Prim2SF b)) as [[]|]; congruence.
Qed.

Lemma positive_not_zero (u : float) : (0 <? u) = true -> (u =? 0) = false.
Proof.
  rewrite FloatAxioms.ltb_spec, FloatAxioms.eqb_spec, Prim2SF_zero.
  destruct (Prim2SF u) as [[]|[]| |[] m e]; cbv; congruence.
Qed.

Lemma same_sign_not_zero (u v : float) :
  F64.same_sign u v = true -> (u =? 0) = false /\ (v =? 0) = false.
Proof.
  unfold F64.same_sign. intros H.
  apply orb_true_iff in H as [H|H]; apply andb_true_iff in H as [Hu Hv].
  - split; apply positive_not_zero; assumption.
  - split; apply ltb_not_eqb; assumption.
Qed.

(** [a * 0] is a zero of either sign when [a] is finite. *)
Lemma mul_zero_r (a : float) :
  F64.finite a = true -> exists s, Prim2SF (a * 0) = S754_zero s.
Proof.
  unfold F64.finite. rewrite FloatAxioms.mul_spec, Prim2SF_zero.
  destruct (Prim2SF a) as [s|s| |s m e]; try discriminate; intros _;
    eexists; reflexivity.
Qed.

Lemma add_one_zero (z : float) (s : bool) :
  Prim2SF z = S754_zero s -> 1 + z = 1.
Proof.
  intros H. apply Prim2SF_inj. rewrite FloatAxioms.add_spec, H. reflexivity.
Qed.

(** ** The grid: [np.arange(0, 1 + h, h)] *)

Lemma arange_inv (start stop step : float) (x : list float) :
  Np.arange start stop step = Ok x ->
  (step =? 0) = false /\
  exists n : nat,
    x = firstn n [start; start + step]
        ++ Np.fill start (start + step - start) n.
Proof.
  unfold Np.arange, F64.truediv.
  destruct (step =? 0); cbn [Py.bind]; [discriminate|].
  destruct (F64.ceil ((stop - start) / step)) as [c|].
  - destruct ((c <? Np.intp_min)%Z || (Np.intp_max + 1 <? c)%Z);
      [discriminate|].
    cbv zeta. destruct (Np.to_intp c <=? 0)%Z.
    + intros [= <-]. split; [reflexivity|]. exists 0%nat. reflexivity.
    + destruct (Np.too_big <=? Np.to_intp c)%Z; [discriminate|].
      intros [= <-]. split; [reflexivity|]. eexists. reflexivity.
  - destruct (is_nan _); discriminate.
Qed.



Lemma buffer_lookup (n : nat) (s nx d : float) (i : nat) :
  (i < n)%nat ->
  (firstn n [s; nx] ++ Np.fill s d n) !! i =
    Some (match i with
          | O => s
          | S O => nx
          | _ => s + F64.of_nat i * d
          end).
Proof.
  intros Hi. unfold Np.fill.
  destruct i as [|[|i]].
  - destruct n; [lia | reflexivity].
  - destruct n as [|[|n]]; try lia; reflexivity.
  - destruct n as [|[|n]]; try lia.
    replace (firstn (S (S n)) [s; nx]) with [s; nx]
      by (simpl; rewrite firstn_nil; reflexivity).
    change (([s; nx] ++ ?l) !! S (S i)) with (l !! i).
    rewrite lookup_map.
    replace (S (S n) - 2)%nat with n by lia.
    rewrite lookup_seq_lt by lia. reflexivity.
Qed.

Lemma arange_first (start stop step : float) (x : list float) :
  Np.arange start stop step = Ok x -> x <> [] -> x !! 0%nat = Some start.
Proof.
  intros Hx Hne. apply arange_inv in Hx as (_ & n & ->).
  apply (buffer_lookup n start (start + step) (start + step - start) 0).
  destruct n; [|lia]. exfalso. apply Hne. reflexivity.
Qed.

Lemma last_nth {A} (l : list A) (d : A) :
  List.last l d = nth (length l - 1) l d.
Proof.
  induction l as [|a [|b l] IH]; try reflexivity.
  change (List.last (a :: b :: l) d) with (List.last (b :: l) d).
  rewrite IH. simpl. rewrite Nat.sub_0_r. reflexivity.
Qed.


(** The grid at [h = 0.1], [h = 0.3], [h = 2], [h = -0.5] and [h = 0]. *)
Lemma grid_0_1 :
  Np.arange 0 (1 + F64.c0_1) F64.c0_1 =
    Ok [0; F64.c0_1; 2 * F64.c0_1; 3 * F64.c0_1; 4 * F64.c0_1;
        5 * F64.c0_1; 6 * F64.c0_1; 7 * F64.c0_1; 8 * F64.c0_1;
        9 * F64.c0_1; 1].
Proof. vm_compute. reflexivity. Qed.












(** Steps so small that the grid cannot be held: the length 2^62 is
    refused as too big, the length 2^63 comes out of the conversion to
    the index type as a negative one and gives the empty grid, and a
    length beyond that is refused by the range check. *)
Remark arange_tiny_steps :
  Np.arange 0 (1 + 0x1p-62) 0x1p-62 =
    Raise (ValueError
      "array is too big; `arr.size * arr.dtype.itemsize` is larger than the maximum possible size.") /\
  Np.arange 0 (1 + 0x1p-63) 0x1p-63 = Ok [] /\
  Np.arange 0 (1 + 0x1p-64) 0x1p-64 =
    Raise (ValueError "Maximum allowed size exceeded").
Proof. split; [|split]; vm_compute; reflexivity. Qed.

(** ** Indexing *)

Lemma index_nat (n i : nat) : (i < n)%nat -> Py.index n (Z.of_nat i) = Ok i.
Proof.
  intros Hi. unfold Py.index.
  replace ((0 <=? Z.of_nat i)%Z && (Z.of_nat i <? Z.of_nat n)%Z) with true.
  - rewrite Nat2Z.id. reflexivity.
  - symmetry. apply andb_true_iff. split; [apply Z.leb_le | apply Z.ltb_lt]; lia.
Qed.

Lemma index_last (n : nat) : (0 < n)%nat -> Py.index n (-1) = Ok (n - 1)%nat.
Proof.
  intros Hn. unfold Py.index.
  replace ((0 <=? -1)%Z && (-1 <? Z.of_nat n)%Z) with false by reflexivity.
  replace ((- Z.of_nat n <=? -1)%Z && (-1 <? 0)%Z) with true.
  - f_equal. lia.
  - symmetry. apply andb_true_iff. split; [apply Z.leb_le; lia | reflexivity].
Qed.

Lemma getitem_nat {A} (l : list A) (i : nat) (d : A) :
  (i < length l)%nat -> Py.getitem l (Z.of_nat i) = Ok (nth i l d).
Proof.
  intros Hi. unfold Py.getitem. rewrite index_nat by exact Hi. simpl.
  rewrite (lookup_nth l i d Hi). reflexivity.
Qed.

Lemma getitem_last {A} (l : list A) (d : A) :
  (0 < length l)%nat -> Py.getitem l (-1) = Ok (List.last l d).
Proof.
  intros Hl. unfold Py.getitem. rewrite index_last by exact Hl. simpl.
  rewrite (lookup_nth l (length l - 1) d) by lia.
  rewrite last_nth. reflexivity.
Qed.

Lemma setitem_length {A} (l l' : list A) (i : Z) (v : A) :
  Py.setitem l i v = Ok l' -> length l' = length l.
Proof.
  unfold Py.setitem. intros H. inv_bind H. injection H as <-.
  apply length_insert.
Qed.

(** ** The values stored by an integration *)

Lemma columns_stored (cols : list (float * float)) :
  columns (stored cols) = cols.
Proof. destruct cols; reflexivity. Qed.

Lemma columns_values (v : ode_values) :
  (0 < length (columns v))%nat ->
  exists c cs, v = values c cs.
Proof. destruct v as [|c cs]; simpl; [lia | eauto]. Qed.

Lemma row_values (c : float * float) (cs : list (float * float)) :
  row (values c cs) 0 = Ok (map fst (c :: cs)).
Proof. reflexivity. Qed.

Lemma entry_values (c : float * float) (cs : list (float * float)) :
  entry (values c cs) 0 (-1) = Ok (List.last (map fst (c :: cs)) 0).
Proof.
  unfold entry. rewrite row_values. cbn [Py.bind].
  apply getitem_last. simpl. lia.
Qed.

Lemma row_inv (v : ode_values) (y : list float) :
  row v 0 = Ok y ->
  exists c cs, v = values c cs /\ y = map fst (c :: cs).
Proof.
  destruct v as [|c cs]; [discriminate|].
  rewrite row_values. intros [= <-]. eauto.
Qed.

(** ** The reference library meets the contracts *)

Lemma ref_root_scalar_refuses (f : float -> result float) (a b : float)
    (m : method) (xtol rtol : option float) (fa fb : float) :
  f a = Ok fa -> f b = Ok fb -> F64.same_sign fa fb = true ->
  Ref.root_scalar f (a, b) m xtol rtol = Raise NoRootInBracket.
Proof.
  intros Ha Hb Hs. unfold Ref.root_scalar. rewrite Ha, Hb.
  cbn [Py.bind].
  destruct (same_sign_not_zero fa fb Hs) as [-> ->]. rewrite Hs.
  reflexivity.
Qed.

Lemma ref_bracket : root_scalar_bracket RefLib.
Proof. intros f a b xtol rtol fa fb. apply ref_root_scalar_refuses. Qed.

Lemma stalled_bracket : root_scalar_bracket StalledLib.
Proof. intros f a b xtol rtol fa fb. apply ref_root_scalar_refuses. Qed.

Lemma ref_solve_ivp_status f span y0 t_eval rtol atol sol :
  Ref.solve_ivp f span y0 t_eval rtol atol = Ok sol ->
  ode_status sol = 0%Z /\ ode_t sol = t_eval /\
  length (columns (ode_y sol)) = length t_eval.
Proof.
  unfold Ref.solve_ivp. destruct span as [t0 tf].
  destruct (forallb _ t_eval); [|discriminate].
  intros [= <-]. cbn [ode_status ode_t ode_y]. rewrite columns_stored.
  assert (H : forall t Y, length (Ref.sample f t Y t_eval) = length t_eval).
  { induction t_eval as [|t' l IH]; intros t Y; simpl; [reflexivity|].
    f_equal. apply IH. }
  rewrite H. auto.
Qed.

Lemma ref_samples : solve_ivp_samples RefLib.
Proof.
  intros f span y0 t_eval rtol atol sol H _.
  apply ref_solve_ivp_status in H. tauto.
Qed.

Lemma ref_defaults : root_scalar_defaults RefLib.
Proof. intros f [a b]. reflexivity. Qed.

Lemma ref_completes : integration_completes RefLib.
Proof.
  intros alpha x_eval sol H. unfold solve_shooting in H.
  apply ref_solve_ivp_status in H. tauto.
Qed.

Lemma eliminate_length (n : nat) (rows : list (list float)) (y : list float) :
  Ref.eliminate n rows = Ok y -> length y = n.
Proof.
  revert rows y. induction n as [|n IH]; intros rows y; simpl.
  - intros [= <-]. reflexivity.
  - destruct (rows !! _) as [prow|]; [|discriminate].
    destruct (rows !! 0%nat) as [r0|]; [|discriminate].
    destruct (hd 0 prow =? 0); [discriminate|].
    intros H. inv_bind H. injection H as <-. simpl. f_equal.
    eapply IH, Ha.
Qed.

Lemma ref_solve_shape : solve_shape RefLib.
Proof.
  intros A b y. simpl. unfold Ref.solve.
  destruct (_ && _); [|discriminate]. apply eliminate_length.
Qed.

(** ** C7: a bracket without a sign change *)

Section Fatal.

Context (L : Lib).

(** C7.  If the residual has one sign at both ends of the bracket
    [-10, 10], the root finder refuses the bracket and
    [shooting_method] ends with that very error: nothing catches it and
    no second bracket is tried.  The script then ends with the same
    error and has produced no output at all, neither table nor plot. *)
Theorem no_root_is_fatal (h : float) (x : list float) (fa fb : float) :
  root_scalar_bracket L ->
  Np.arange 0 (1 + h) h = Ok x ->
  boundary_residual x (-10) = Ok fa ->
  boundary_residual x 10 = Ok fb ->
  F64.same_sign fa fb = true ->
  shooting_method h = Raise NoRootInBracket /\
  Io.run (main h) = ([], Raise NoRootInBracket).
Proof.
  intros Hc Hx Ha Hb Hs.
  assert (H : shooting_method h = Raise NoRootInBracket).
  { unfold shooting_method. rewrite Hx. cbn [Py.bind].
    rewrite (Hc _ _ _ None None fa fb Ha Hb Hs). reflexivity. }
  split; [exact H|].
  unfold main, Io.run, Io.bind, Io.lift. rewrite H. reflexivity.
Qed.

End Fatal.

Lemma no_root_is_fatal_witness :
  @shooting_method StalledLib F64.c0_1 = Raise NoRootInBracket /\
  Io.run (@main StalledLib F64.c0_1) = ([], Raise NoRootInBracket).
Proof.
  eapply (no_root_is_fatal StalledLib F64.c0_1 _ (-1) (-1)).
  - exact stalled_bracket.
  - exact grid_0_1.
  - vm_compute. reflexivity.
  - vm_compute. reflexivity.
  - reflexivity.
Defined.

(** ** C8: the report of the minimizer *)

(** C8 (counterexample).  With a minimizer that reports failure
    ([success] false, iteration limit reached), [variational_method]
    raises nothing: it returns the trial at the reported parameters. *)
Lemma failure_report_is_ignored :
  exists x res y,
    Np.arange 0 (1 + F64.c0_1) F64.c0_1 = Ok x /\
    @minimize GivesUpLib (@residual_squared GivesUpLib x) [0; 0; 0]
      (@cons GivesUpLib) = Ok res /\
    opt_success res = false /\
    @variational_method GivesUpLib F64.c0_1 = Ok (x, y).
Proof.
  eexists _, _, _. split; [exact grid_0_1|].
  split; [reflexivity|]. split; [reflexivity|].
  vm_compute. reflexivity.
Qed.

Section Report.

Context (L : Lib).

(** C8 (amended).  [variational_method] never looks at what the
    minimizer reports: whenever the minimizer returns a result with
    three parameters, converged or not, the trial evaluated with them
    at every grid point is returned; only an exception raised by the
    minimizer itself propagates, unchanged and without a retry. *)
Theorem minimizer_report_not_inspected (h : float) (x : list float) :
  Np.arange 0 (1 + h) h = Ok x ->
  (forall res a b c,
     minimize (residual_squared x) [0; 0; 0] cons = Ok res ->
     opt_x res = [a; b; c] ->
     variational_method h = Ok (x, map (fun xi => trial xi a b c) x)) /\
  (forall e,
     minimize (residual_squared x) [0; 0; 0] cons = Raise e ->
     variational_method h = Raise e).
Proof.
  intros Hx. split.
  - intros res a b c Hm Hp. unfold variational_method.
    rewrite Hx. cbn [Py.bind]. rewrite Hm. cbn [Py.bind].
    rewrite Hp. reflexivity.
  - intros e Hm. unfold variational_method.
    rewrite Hx. cbn [Py.bind]. rewrite Hm. reflexivity.
Qed.

(** ** C9: the grid of two points *)

(** C9.  For h = 1.0 the grid is the two points 0 and 1, both rows of
    the system are boundary rows (the matrix is the identity and the
    right-hand side is 1, 2), and [finite_difference_method] returns
    exactly y = [1, 2], given that [solve] solves that system. *)
Theorem fd_two_points :
  solve [[1; 0]; [0; 1]] [1; 2] = Ok [1; 2] ->
  Np.arange 0 (1 + 1) 1 = Ok [0; 1] /\
  fd_system 1 [0; 1] = Ok ([[1; 0]; [0; 1]], [1; 2]) /\
  finite_difference_method 1 = Ok ([0; 1], [1; 2]).
Proof.
  intros Hs.
  assert (Hg : Np.arange 0 (1 + 1) 1 = Ok [0; 1]) by reflexivity.
  assert (Hf : fd_system 1 [0; 1] = Ok ([[1; 0]; [0; 1]], [1; 2]))
    by reflexivity.
  repeat split; try assumption.
  unfold finite_difference_method. rewrite Hg. cbn [Py.bind].
  rewrite Hf. cbn [Py.bind]. rewrite Hs. reflexivity.
Qed.

End Report.

Lemma minimizer_report_not_inspected_witness :
  (forall res a b c,
     @minimize GivesUpLib
       (@residual_squared GivesUpLib
          [0; F64.c0_1; 2 * F64.c0_1; 3 * F64.c0_1; 4 * F64.c0_1;
           5 * F64.c0_1; 6 * F64.c0_1; 7 * F64.c0_1; 8 * F64.c0_1;
           9 * F64.c0_1; 1])
       [0; 0; 0] (@cons GivesUpLib) = Ok res ->
     opt_x res = [a; b; c] ->
     @variational_method GivesUpLib F64.c0_1 =
       Ok ([0; F64.c0_1; 2 * F64.c0_1; 3 * F64.c0_1; 4 * F64.c0_1;
            5 * F64.c0_1; 6 * F64.c0_1; 7 * F64.c0_1; 8 * F64.c0_1;
            9 * F64.c0_1; 1],
           map (fun xi => @trial GivesUpLib xi a b c)
             [0; F64.c0_1; 2 * F64.c0_1; 3 * F64.c0_1; 4 * F64.c0_1;
              5 * F64.c0_1; 6 * F64.c0_1; 7 * F64.c0_1; 8 * F64.c0_1;
              9 * F64.c0_1; 1])) /\
  (forall e,
     @minimize GivesUpLib
       (@residual_squared GivesUpLib
          [0; F64.c0_1; 2 * F64.c0_1; 3 * F64.c0_1; 4 * F64.c0_1;
           5 * F64.c0_1; 6 * F64.c0_1; 7 * F64.c0_1; 8 * F64.c0_1;
           9 * F64.c0_1; 1])
       [0; 0; 0] (@cons GivesUpLib) = Raise e ->
     @variational_method GivesUpLib F64.c0_1 = Raise e).
Proof.
  apply (minimizer_report_not_inspected GivesUpLib F64.c0_1).
  exact grid_0_1.
Defined.

Lemma fd_two_points_witness :
  Np.arange 0 (1 + 1) 1 = Ok [0; 1] /\
  @fd_system RefLib 1 [0; 1] = Ok ([[1; 0]; [0; 1]], [1; 2]) /\
  @finite_difference_method RefLib 1 = Ok ([0; 1], [1; 2]).
Proof.
  apply (fd_two_points RefLib).
  vm_compute. reflexivity.
Defined.

(** ** The linear system of the finite-difference method *)

Lemma map_seq_lookup {A} (f : nat -> A) (n r : nat) :
  (r < n)%nat -> map f (seq 0 n) !! r = Some (f r).
Proof.
  intros Hr. rewrite lookup_map, lookup_seq_lt by exact Hr. reflexivity.
Qed.

Lemma map_seq_eq {A} (f g : nat -> A) (n : nat) :
  (forall r, (r < n)%nat -> f r = g r) -> map f (seq 0 n) = map g (seq 0 n).
Proof.
  intros H. apply map_ext_in. intros r Hr. apply in_seq in Hr. apply H. lia.
Qed.

Lemma insert_map_seq {A} (f : nat -> A) (n i : nat) (v : A) :
  <[i := v]> (map f (seq 0 n)) =
  map (fun r => if Nat.eqb r i then v else f r) (seq 0 n).
Proof.
  apply list_eq. intros r.
  destruct (Nat.lt_ge_cases r n) as [Hr|Hr].
  - rewrite map_seq_lookup by exact Hr.
    destruct (Nat.eqb_spec r i) as [->|Hne].
    + apply list_lookup_insert_eq. rewrite length_map, length_seq. exact Hr.
    + rewrite list_lookup_insert_ne by congruence.
      apply map_seq_lookup, Hr.
  - rewrite !lookup_ge_None_2; auto;
      rewrite ?length_insert, length_map, length_seq; exact Hr.
Qed.

Lemma zeros_map_seq (n : nat) : Np.zeros n = map (fun _ => 0) (seq 0 n).
Proof.
  unfold Np.zeros. apply list_eq. intros r.
  destruct (Nat.lt_ge_cases r n) as [Hr|Hr].
  - rewrite lookup_repeat, map_seq_lookup by exact Hr. reflexivity.
  - rewrite !lookup_ge_None_2; auto;
      rewrite ?repeat_length, ?length_map, ?length_seq; exact Hr.
Qed.

Lemma zeros2_map_seq (n m : nat) :
  Np.zeros2 n m = map (fun _ => Np.zeros m) (seq 0 n).
Proof.
  unfold Np.zeros2. apply list_eq. intros r.
  destruct (Nat.lt_ge_cases r n) as [Hr|Hr].
  - rewrite lookup_repeat, map_seq_lookup by exact Hr. reflexivity.
  - rewrite !lookup_ge_None_2; auto;
      rewrite ?repeat_length, ?length_map, ?length_seq; exact Hr.
Qed.

Lemma index_nonneg (n : nat) (z : Z) (k : nat) :
  (0 <= z)%Z -> Z.to_nat z = k -> (k < n)%nat -> Py.index n z = Ok k.
Proof.
  intros Hz <- Hk. unfold Py.index.
  replace ((0 <=? z)%Z && (z <? Z.of_nat n)%Z) with true; [reflexivity|].
  symmetry. apply andb_true_iff. split; [apply Z.leb_le | apply Z.ltb_lt]; lia.
Qed.

Lemma setitem_at {A} (l : list A) (i : Z) (k : nat) (v : A) :
  Py.index (length l) i = Ok k -> Py.setitem l i v = Ok (<[k := v]> l).
Proof. intros H. unfold Py.setitem. rewrite H. reflexivity. Qed.

Lemma setitem2_at (A : list (list float)) (i j : Z) (ki kj : nat)
    (v : float) (row : list float) :
  Py.index (length A) i = Ok ki -> A !! ki = Some row ->
  Py.index (length row) j = Ok kj ->
  Np.setitem2 A i j v = Ok (<[ki := <[kj := v]> row]> A).
Proof.
  intros Hi Hrow Hj. unfold Np.setitem2, Py.getitem.
  rewrite Hi. cbn [Py.bind]. rewrite Hrow. cbn [Py.bind].
  rewrite (setitem_at row j kj v Hj). cbn [Py.bind].
  apply setitem_at, Hi.
Qed.
Section System.

Context (L : Lib).
Variables (h : float) (x : list float).

Let n := length x.

Lemma A_at_length (k : nat) : length (A_at h x k) = n.
Proof. unfold A_at. rewrite length_map, length_seq. reflexivity. Qed.

Lemma b_at_length (k : nat) : length (b_at x k) = n.
Proof. unfold b_at. rewrite length_map, length_seq. reflexivity. Qed.

(** The two boundary rows and the two boundary values. *)
Lemma fd_init :
  (2 <= n)%nat ->
  fd_system h x =
    Py.for_each (fd_row h x) (Py.range 1 (n - 1)) (A_at h x 1, b_at x 1).
Proof.
  intros Hn. unfold fd_system. fold n.
  assert (Hz : length (Np.zeros n) = n) by apply repeat_length.
  assert (Hzz : length (Np.zeros2 n n) = n) by apply repeat_length.
  rewrite (setitem2_at (Np.zeros2 n n) 0 0 0 0 1 (Np.zeros n));
    [| apply index_nonneg; lia | apply lookup_repeat; lia
     | apply index_nonneg; lia ].
  cbn [Py.bind].
  rewrite (setitem_at (Np.zeros n) 0 0 1) by (apply index_nonneg; lia).
  cbn [Py.bind].
  rewrite (setitem2_at _ (-1) (-1) (n - 1) (n - 1) 1 (Np.zeros n));
    [| rewrite length_insert, Hzz; apply index_last; lia
     | rewrite list_lookup_insert_ne by lia; apply lookup_repeat; lia
     | rewrite Hz; apply index_last; lia ].
  cbn [Py.bind].
  rewrite (setitem_at _ (-1) (n - 1) 2)
    by (rewrite length_insert, Hz; apply index_last; lia).
  cbn [Py.bind]. apply f_equal. f_equal.
  - rewrite zeros2_map_seq, !insert_map_seq. unfold A_at. fold n.
    apply map_seq_eq. intros r Hr. unfold pending.
    rewrite !zeros_map_seq, !insert_map_seq.
    destruct (Nat.eqb_spec r (n - 1)) as [->|H1].
    + replace (n - 1 <? n - 1)%nat with false
        by (symmetry; apply Nat.ltb_ge; lia).
      rewrite andb_false_r. cbn [andb].
      apply map_seq_eq. intros j Hj. unfold Spec.fd_A. fold n.
      rewrite Nat.eqb_refl, orb_true_r. reflexivity.
    + destruct (Nat.eqb_spec r 0) as [->|H0].
      * cbn [Nat.ltb Nat.leb andb].
        apply map_seq_eq. intros j Hj. unfold Spec.fd_A. reflexivity.
      * replace ((0 <? r)%nat && (r <? n - 1)%nat && (1 <=? r)%nat)
          with true; [reflexivity|].
        symmetry. rewrite !andb_true_iff. repeat split;
          [apply Nat.ltb_lt | apply Nat.ltb_lt | apply Nat.leb_le]; lia.
  - rewrite zeros_map_seq, !insert_map_seq. unfold b_at. fold n.
    apply map_seq_eq. intros r Hr. unfold pending, Spec.fd_b. fold n.
    destruct (Nat.eqb_spec r (n - 1)) as [->|H1].
    + replace (n - 1 <? n - 1)%nat with false
        by (symmetry; apply Nat.ltb_ge; lia).
      rewrite andb_false_r. cbn [andb].
      destruct (Nat.eqb_spec (n - 1) 0); [lia | reflexivity].
    + destruct (Nat.eqb_spec r 0) as [->|H0]; [reflexivity|].
      replace ((0 <? r)%nat && (r <? n - 1)%nat && (1 <=? r)%nat)
        with true; [reflexivity|].
      symmetry. rewrite !andb_true_iff. repeat split;
        [apply Nat.ltb_lt | apply Nat.ltb_lt | apply Nat.leb_le]; lia.
Qed.

Lemma pending_self (i : nat) :
  (1 <= i)%nat -> (i < n - 1)%nat -> pending n i i = true.
Proof.
  intros H1 H2. unfold pending. rewrite !andb_true_iff. repeat split;
    [apply Nat.ltb_lt | apply Nat.ltb_lt | apply Nat.leb_le]; lia.
Qed.

Lemma pending_next (i r : nat) :
  r <> i -> pending n (S i) r = pending n i r.
Proof.
  intros Hr. unfold pending. f_equal.
  destruct (Nat.leb_spec (S i) r), (Nat.leb_spec i r); try reflexivity; lia.
Qed.

Lemma pending_done (r : nat) : pending n (n - 1) r = false.
Proof.
  unfold pending.
  destruct (Nat.ltb_spec r (n - 1)), (Nat.leb_spec (n - 1) r);
    rewrite ?andb_false_r; try reflexivity; lia.
Qed.

(** An interior row, as the three assignments of the loop leave it. *)
Lemma interior_row (i : nat) (a d c : float) :
  (1 <= i)%nat -> (i < n - 1)%nat ->
  a = 1 / pow h 2 + (nth i x 0 + 1) / (2 * h) ->
  d = (-2) / pow h 2 - 2 ->
  c = 1 / pow h 2 - (nth i x 0 + 1) / (2 * h) ->
  <[S i := c]> (<[i := d]> (<[(i - 1)%nat := a]> (Np.zeros n))) =
  map (Spec.fd_A h x i) (seq 0 n).
Proof.
  intros H1 H2 -> -> ->.
  rewrite zeros_map_seq, !insert_map_seq. apply map_seq_eq. intros j Hj.
  unfold Spec.fd_A. fold n.
  destruct (Nat.eqb_spec i 0); [lia|].
  destruct (Nat.eqb_spec i (n - 1)); [lia|]. cbn [orb].
  replace (i + 1)%nat with (S i) by lia.
  destruct (Nat.eqb_spec j (S i)), (Nat.eqb_spec j i),
    (Nat.eqb_spec j (i - 1)); try reflexivity; lia.
Qed.

(** One turn of the loop. *)
Lemma fd_row_step (i : nat) :
  (1 <= i)%nat -> (i < n - 1)%nat -> (pow h 2 =? 0) = false ->
  fd_row h x i (A_at h x i, b_at x i) = Ok (A_at h x (S i), b_at x (S i)).
Proof.
  intros H1 H2 Hp. unfold fd_row.
  rewrite (getitem_nat x i 0) by (fold n; lia). cbn [Py.bind].
  unfold F64.truediv. rewrite Hp. cbn [Py.bind].
  assert (Hrow : A_at h x i !! i = Some (Np.zeros n)).
  { unfold A_at. fold n. rewrite map_seq_lookup by lia.
    rewrite pending_self by assumption. reflexivity. }
  assert (Hz : length (Np.zeros n) = n) by apply repeat_length.
  assert (Hi : forall l : list (list float), length l = n ->
            Py.index (length l) (Z.of_nat i) = Ok i).
  { intros l ->. apply index_nonneg; lia. }
  assert (Hj : forall (l : list float) (z : Z) (k : nat), length l = n ->
            (0 <= z)%Z -> Z.to_nat z = k -> (k < n)%nat ->
            Py.index (length l) z = Ok k).
  { intros l z k -> ? ? ?. apply index_nonneg; assumption. }
  set (a := 1 / pow h 2 + (nth i x 0 + 1) / (2 * h)).
  set (d := (-2) / pow h 2 - 2).
  set (c := 1 / pow h 2 - (nth i x 0 + 1) / (2 * h)).
  rewrite (setitem2_at _ _ _ i (i - 1)%nat a (Np.zeros n));
    [| apply Hi, A_at_length | exact Hrow | apply Hj; try assumption; lia].
  cbn [Py.bind].
  rewrite (setitem2_at _ _ _ i i d (<[(i - 1)%nat := a]> (Np.zeros n)));
    [| rewrite length_insert; apply Hi, A_at_length
     | apply list_lookup_insert_eq; rewrite A_at_length; lia
     | apply Hj; rewrite ?length_insert; try assumption; lia].
  cbn [Py.bind]. rewrite list_insert_insert_eq.
  rewrite (setitem2_at _ _ _ i (S i) c
             (<[i := d]> (<[(i - 1)%nat := a]> (Np.zeros n))));
    [| rewrite length_insert; apply Hi, A_at_length
     | apply list_lookup_insert_eq; rewrite A_at_length; lia
     | apply Hj; rewrite ?length_insert; try assumption; lia].
  cbn [Py.bind]. rewrite list_insert_insert_eq.
  rewrite (setitem_at _ _ i) by (rewrite b_at_length; apply index_nonneg; lia).
  cbn [Py.bind]. f_equal. f_equal.
  - rewrite (interior_row i a d c H1 H2 eq_refl eq_refl eq_refl).
    unfold A_at. fold n. rewrite insert_map_seq. apply map_seq_eq.
    intros r Hr. destruct (Nat.eqb_spec r i) as [->|Hne].
    + replace (pending n (S i) i) with false; [reflexivity|].
      unfold pending. destruct (Nat.leb_spec (S i) i);
        rewrite ?andb_false_r; [lia | reflexivity].
    + rewrite pending_next by exact Hne. reflexivity.
  - unfold b_at. fold n. rewrite insert_map_seq. apply map_seq_eq.
    intros r Hr. destruct (Nat.eqb_spec r i) as [->|Hne].
    + replace (pending n (S i) i) with false.
      * unfold Spec.fd_b. fold n.
        destruct (Nat.eqb_spec i 0); [lia|].
        destruct (Nat.eqb_spec i (n - 1)); [lia | reflexivity].
      * unfold pending. destruct (Nat.leb_spec (S i) i);
          rewrite ?andb_false_r; [lia | reflexivity].
    + rewrite pending_next by exact Hne. reflexivity.
Qed.

(** The loop, from index [k] on. *)
Lemma fd_loop (len k : nat) :
  (1 <= k)%nat -> (k + len = n - 1)%nat -> (pow h 2 =? 0) = false ->
  Py.for_each (fd_row h x) (seq k len) (A_at h x k, b_at x k) =
    Ok (A_at h x (n - 1), b_at x (n - 1)).
Proof.
  intros Hk Hlen Hp. revert k Hk Hlen.
  induction len as [|len IH]; intros k Hk Hlen.
  - replace k with (n - 1)%nat by lia. reflexivity.
  - cbn [seq Py.for_each]. rewrite fd_row_step by (assumption || lia).
    cbn [Py.bind]. apply IH; lia.
Qed.

(** X1.  The linear system (the first half of C2).  On a grid of at
    least two points, for a step whose square is not zero,
    [finite_difference_method] hands to [solve] the matrix and the
    right-hand side of the specification:
    in an interior row i the entries 1/h^2 + (xi+1)/(2h),
    -2/h^2 - 2 and 1/h^2 - (xi+1)/(2h) left of, on and right of the
    diagonal and the value (1 - xi^2) e^(-xi); in the first and the
    last row a single 1 on the diagonal, with the values 1 and 2;
    zero everywhere else. *)
Theorem fd_system_entries :
  (2 <= n)%nat -> (pow h 2 =? 0) = false ->
  fd_system h x = Ok (Spec.fd_matrix h x, Spec.fd_vector x).
Proof.
  intros Hn Hp. rewrite fd_init by exact Hn.
  unfold Py.range. rewrite (fd_loop (n - 1 - 1) 1) by (assumption || lia).
  f_equal. f_equal.
  - unfold A_at, Spec.fd_matrix. fold n. apply map_seq_eq. intros r Hr.
    rewrite pending_done. reflexivity.
  - unfold b_at, Spec.fd_vector. fold n. apply map_seq_eq. intros r Hr.
    rewrite pending_done. reflexivity.
Qed.

End System.

(** ** C10: the three results line up *)

Lemma for_each_invariant {S I} (P : S -> Prop) (body : I -> S -> result S)
    (ixs : list I) (s s' : S) :
  (forall i t t', body i t = Ok t' -> P t -> P t') ->
  P s -> Py.for_each body ixs s = Ok s' -> P s'.
Proof.
  intros Hbody. revert s. induction ixs as [|i rest IH]; intros s Hs H.
  - injection H as <-. exact Hs.
  - cbn [Py.for_each] in H. inv_bind H. eapply IH; [|exact H].
    eapply Hbody; eassumption.
Qed.

Lemma setitem2_length (A A' : list (list float)) (i j : Z) (v : float) :
  Np.setitem2 A i j v = Ok A' -> length A' = length A.
Proof.
  unfold Np.setitem2. intros H. inv_bind H. inv_bind H.
  eapply setitem_length, H.
Qed.

Section Aligned.

Context (L : Lib).

Lemma fd_row_shape (h : float) (x : list float) (i : nat)
    (A A' : list (list float)) (b b' : list float) :
  fd_row h x i (A, b) = Ok (A', b') ->
  length A' = length A /\ length b' = length b.
Proof.
  unfold fd_row. intros H.
  inv_bind H. inv_bind H. inv_bind H. inv_bind H. inv_bind H.
  inv_bind H. inv_bind H. inv_bind H. injection H as <- <-.
  repeat match goal with
         | H : Np.setitem2 _ _ _ _ = Ok _ |- _ =>
             apply setitem2_length in H
         | H : Py.setitem _ _ _ = Ok _ |- _ => apply setitem_length in H
         end.
  split; congruence.
Qed.

Lemma fd_system_shape (h : float) (x : list float)
    (A : list (list float)) (b : list float) :
  fd_system h x = Ok (A, b) ->
  length A = length x /\ length b = length x.
Proof.
  unfold fd_system. intros H.
  inv_bind H. inv_bind H. inv_bind H. inv_bind H.
  repeat match goal with
         | H : Np.setitem2 _ _ _ _ = Ok _ |- _ =>
             apply setitem2_length in H
         | H : Py.setitem _ _ _ = Ok _ |- _ => apply setitem_length in H
         end.
  unfold Np.zeros2, Np.zeros in *. rewrite repeat_length in *.
  eapply (for_each_invariant
            (fun s => length (fst s) = length x /\ length (snd s) = length x)
            _ _ _ (A, b)) in H; [exact H | | simpl; split; congruence].
  intros i [A1 b1] [A2 b2] Hrow [HA Hb].
  apply fd_row_shape in Hrow as [? ?]. simpl in *. split; congruence.
Qed.

Lemma shooting_inv (h : float) (x y : list float) :
  shooting_method h = Ok (x, y) ->
  Np.arange 0 (1 + h) h = Ok x /\
  exists r sol,
    root_scalar (boundary_residual x) (-10, 10) brentq None None = Ok r /\
    solve_shooting (root r) x = Ok sol /\
    row (ode_y sol) 0 = Ok y.
Proof.
  unfold shooting_method. intros H.
  inv_bind_as H x' Hx. inv_bind_as H r Hr. inv_bind_as H sol Hsol.
  inv_bind_as H y' Hy. injection H as <- <-. split; [assumption|]. eauto.
Qed.

Lemma finite_difference_inv (h : float) (x y : list float) :
  finite_difference_method h = Ok (x, y) ->
  Np.arange 0 (1 + h) h = Ok x /\
  exists A b, fd_system h x = Ok (A, b) /\ solve A b = Ok y.
Proof.
  unfold finite_difference_method. intros H.
  inv_bind_as H x' Hx. inv_bind_as H Ab HAb. destruct Ab as [A b].
  inv_bind_as H y' Hy. injection H as <- <-. split; [assumption|]. eauto.
Qed.

Lemma variational_inv (h : float) (x y : list float) :
  variational_method h = Ok (x, y) ->
  Np.arange 0 (1 + h) h = Ok x /\
  exists res a b c,
    minimize (residual_squared x) [0; 0; 0] cons = Ok res /\
    opt_x res = [a; b; c] /\
    y = map (fun xi => trial xi a b c) x.
Proof.
  unfold variational_method. intros H.
  inv_bind_as H x' Hx. inv_bind_as H res Hres. inv_bind_as H p Hp.
  destruct p as [[a b] c]. injection H as <- <-. split; [assumption|].
  exists res, a, b, c. repeat split; try assumption.
  unfold unpack3 in Hp.
  destruct (opt_x res) as [|a' [|b' [|c' [|]]]]; try discriminate.
  injection Hp as -> -> ->. reflexivity.
Qed.

(** The table: one row per grid point when the columns are as long
    as the grid. *)
Lemma print_rows_ok (x a b c : list float) (ixs : list nat)
    (tr : list Io.event) :
  length a = length x -> length b = length x -> length c = length x ->
  (forall i, In i ixs -> (i < length x)%nat) ->
  Io.for_each (print_row x a b c) ixs tr =
    (tr ++ map (fun i => Io.PrintRow (nth i x 0) (nth i a 0)
                           (nth i b 0) (nth i c 0)) ixs,
     Ok tt).
Proof.
  intros Ha Hb Hc. revert tr.
  induction ixs as [|i rest IH]; intros tr Hin.
  - cbn. rewrite app_nil_r. reflexivity.
  - assert (Hi : (i < length x)%nat) by (apply Hin; left; reflexivity).
    cbn [Io.for_each map]. unfold Io.bind at 1. unfold print_row.
    rewrite (getitem_nat x i 0), (getitem_nat a i 0), (getitem_nat b i 0),
      (getitem_nat c i 0) by lia.
    cbn [Io.bind Io.lift Io.emit].
    rewrite IH by (intros j Hj; apply Hin; right; exact Hj).
    rewrite <- app_assoc. reflexivity.
Qed.

(** C10.  Whenever the three solvers return normally for a step size
    h, their x arrays are the same array (each one is
    np.arange(0, 1 + h, h)) and their solution vectors have the length
    of that array, so that the loop over len(x_fd) that prints the
    table indexes y_shoot and y_var within bounds: the script prints
    one row per grid point, draws the three curves and ends normally.
    The library is taken to behave as documented: an integration that
    reaches the end of the interval has one sample per requested
    point, the integrations of this problem do reach it, and [solve]
    returns one unknown per equation. *)
Theorem outputs_aligned (h : float) (xs ys xf yf xv yv : list float) :
  solve_ivp_samples L -> integration_completes L -> solve_shape L ->
  shooting_method h = Ok (xs, ys) ->
  finite_difference_method h = Ok (xf, yf) ->
  variational_method h = Ok (xv, yv) ->
  xs = xf /\ xv = xf /\
  length ys = length xf /\ length yf = length xf /\ length yv = length xf /\
  exists rows,
    length rows = length xf /\
    Io.run (main h) =
      ([Io.PrintHeader; Io.PrintRule] ++ rows ++
       [Io.Figure;
        Io.Plot xs ys "b.-" "Shooting Method";
        Io.Plot xf yf "r.--" "Finite Difference";
        Io.Plot xv yv "g-" "Variational Method";
        Io.XLabel "x"; Io.YLabel "y(x)";
        Io.Title "Comparison of Numerical Methods";
        Io.Legend; Io.Grid; Io.Show],
       Ok tt).
Proof.
  intros Hsam Hcom Hsol Hs Hf Hv.
  pose proof (shooting_inv _ _ _ Hs) as (Hxs & r & sol & _ & Hsol' & Hrow).
  pose proof (finite_difference_inv _ _ _ Hf) as (Hxf & A & b & HAb & Hy).
  pose proof (variational_inv _ _ _ Hv) as (Hxv & res & pa & pb & pc & _ & _ & ->).
  assert (xs = xf) as -> by congruence.
  assert (xv = xf) as -> by congruence.
  assert (Hls : length ys = length xf).
  { apply row_inv in Hrow as (c & cs & Hval & ->). rewrite length_map.
    change (c :: cs) with (columns (values c cs)). rewrite <- Hval.
    unfold solve_shooting in Hsol'.
    apply (Hsam _ _ _ _ _ _ _ Hsol'). apply (Hcom _ _ _ Hsol'). }
  assert (Hlf : length yf = length xf).
  { rewrite (Hsol _ _ _ Hy). apply (fd_system_shape _ _ _ _ HAb). }
  assert (Hlv : length (map (fun xi => trial xi pa pb pc) xf) = length xf)
    by apply length_map.
  repeat (split; [assumption || reflexivity|]).
  exists (map (fun i => Io.PrintRow (nth i xf 0) (nth i ys 0)
                          (nth i yf 0)
                          (nth i (map (fun xi => trial xi pa pb pc) xf) 0))
            (Py.range 0 (length xf))).
  split; cycle 1.
  - unfold Io.run, main. unfold Io.bind at 1. rewrite Hs.
    cbn [Io.lift]. unfold Io.bind at 1. rewrite Hf.
    cbn [Io.lift]. unfold Io.bind at 1. rewrite Hv.
    cbn [Io.lift]. unfold Io.bind at 1. unfold print_results.
    unfold Io.bind at 1. cbn [Io.emit app]. unfold Io.bind at 1.
    cbn [Io.emit app].
    rewrite print_rows_ok; try assumption;
      [| intros i Hi; apply in_seq in Hi; lia].
    unfold Io.plot. rewrite Hls, Hlf, Hlv, Nat.eqb_refl.
    cbn [Io.bind Io.emit]. unfold Io.emit.
    rewrite <- !app_assoc. reflexivity.
  - unfold Py.range. rewrite length_map, length_seq. lia.
Qed.

End Aligned.

(** The three solvers return on the reference library at h = 0.1. *)
Lemma ref_results_0_1 :
  exists xs ys xf yf xv yv,
    @shooting_method RefLib F64.c0_1 = Ok (xs, ys) /\
    @finite_difference_method RefLib F64.c0_1 = Ok (xf, yf) /\
    @variational_method RefLib F64.c0_1 = Ok (xv, yv).
Proof.
  eexists _, _, _, _, _, _.
  split; [|split]; vm_compute; reflexivity.
Qed.

Lemma outputs_aligned_witness :
  exists xs ys xf yf xv yv,
    @shooting_method RefLib F64.c0_1 = Ok (xs, ys) /\
    @finite_difference_method RefLib F64.c0_1 = Ok (xf, yf) /\
    @variational_method RefLib F64.c0_1 = Ok (xv, yv) /\
    xs = xf /\ xv = xf /\
    length ys = length xf /\ length yf = length xf /\
    length yv = length xf /\
    exists rows,
      length rows = length xf /\
      Io.run (@main RefLib F64.c0_1) =
        ([Io.PrintHeader; Io.PrintRule] ++ rows ++
         [Io.Figure;
          Io.Plot xs ys "b.-" "Shooting Method";
          Io.Plot xf yf "r.--" "Finite Difference";
          Io.Plot xv yv "g-" "Variational Method";
          Io.XLabel "x"; Io.YLabel "y(x)";
          Io.Title "Comparison of Numerical Methods";
          Io.Legend; Io.Grid; Io.Show],
         Ok tt).
Proof.
  destruct ref_results_0_1 as (xs & ys & xf & yf & xv & yv & Hs & Hf & Hv).
  exists xs, ys, xf, yf, xv, yv.
  repeat (split; [assumption|]).
  exact (outputs_aligned RefLib F64.c0_1 xs ys xf yf xv yv
           ref_samples ref_completes ref_solve_shape Hs Hf Hv).
Defined.

(** ** C3: the shooting method *)

Section Shooting.

Context (L : Lib).

Lemma ode_system_rhs : ode_system = Spec.rhs.
Proof.
  apply functional_extensionality. intros t.
  apply functional_extensionality. intros [y dy]. reflexivity.
Qed.

(** On a grid that ends at 1, the value stored for the abscissa 1 is
    the last one. *)
Lemma y_at_last (grid ys : list float) :
  ends_at_one grid -> length ys = length grid ->
  Spec.y_at grid ys 1 = Py.getitem ys (-1).
Proof.
  intros (pre & -> & Hpre). revert ys Hpre.
  induction pre as [|t pre IH]; intros ys Hpre Hlen.
  - destruct ys as [|v [|w ys]]; try discriminate. reflexivity.
  - destruct ys as [|v ys]; [discriminate|].
    cbn [forallb] in Hpre. apply andb_true_iff in Hpre as [Ht Hpre].
    cbn [app Spec.y_at]. rewrite (ltb_not_eqb t 1 Ht).
    assert (Hl : length ys = length (pre ++ [1])) by (simpl in Hlen; lia).
    rewrite (IH ys Hpre Hl).
    assert (Hpos : (0 < length ys)%nat)
      by (rewrite Hl, length_app; simpl; lia).
    rewrite (getitem_last ys 0 Hpos).
    rewrite (getitem_last (v :: ys) 0) by (simpl; lia).
    destruct ys; [simpl in Hpos; lia | reflexivity].
Qed.

(** The stored values of an integration on a grid that is not
    empty. *)
Lemma shooting_values (x : list float) (alpha : float) (sol : OdeResult) :
  solve_ivp_samples L -> integration_completes L -> x <> [] ->
  solve_shooting alpha x = Ok sol ->
  exists c cs, ode_y sol = values c cs /\ length (c :: cs) = length x.
Proof.
  intros Hsam Hcom Hne Hsol.
  assert (Hlen : length (columns (ode_y sol)) = length x).
  { unfold solve_shooting in Hsol.
    apply (Hsam _ _ _ _ _ _ _ Hsol). apply (Hcom _ _ _ Hsol). }
  destruct (columns_values (ode_y sol)) as (c & cs & Hv).
  - rewrite Hlen. destruct x; [congruence | simpl; lia].
  - exists c, cs. split; [exact Hv|]. rewrite Hv in Hlen. exact Hlen.
Qed.

Lemma ends_at_one_nonempty (x : list float) : ends_at_one x -> x <> [].
Proof. intros (pre & -> & _). destruct pre; discriminate. Qed.

Lemma residual_agrees (x : list float) (alpha : float) :
  solve_ivp_samples L -> integration_completes L -> ends_at_one x ->
  boundary_residual x alpha = Spec.shooting_residual x alpha.
Proof.
  intros Hsam Hcom Hx.
  unfold boundary_residual, Spec.shooting_residual, Spec.integrate.
  rewrite bind_assoc.
  destruct (solve_shooting alpha x) as [sol|e] eqn:Hsol.
  - destruct (shooting_values x alpha sol Hsam Hcom
                (ends_at_one_nonempty x Hx) Hsol) as (c & cs & Hv & Hlen).
    unfold solve_shooting in Hsol. rewrite ode_system_rhs in Hsol.
    rewrite Hsol. cbn [Py.bind]. rewrite Hv, entry_values.
    cbn [columns Py.bind].
    rewrite y_at_last; [|exact Hx | rewrite length_map; exact Hlen].
    rewrite (getitem_last _ 0) by (simpl; lia). reflexivity.
  - unfold solve_shooting in Hsol. rewrite ode_system_rhs in Hsol.
    rewrite Hsol. reflexivity.
Qed.

(** C3 (amended).  On a grid that ends at 1 (as the grid of the
    script does), [shooting_method] is the solver of the
    specification: the residual at alpha is the y-value at x = 1 of
    the integration of (y', y'') with
    y'' = -(x+1) y' + 2 y + (1 - x^2) e^(-x) from the state
    (1, alpha), with tolerances 1e-8 and sampled at the grid points,
    minus 2; a root of it is sought by the Brent root finder on the
    bracket [-10, 10], to which no tolerance is passed, so that it
    runs to the default tolerances of that routine, which are below
    1e-8; and the result is the integration at that root.  The vector
    returned has one value per grid point, the first grid point being
    0 and the last 1.  The integrator is taken to behave as
    documented and to reach the end of the interval. *)
Theorem shooting_method_refines (h : float) (x : list float) :
  solve_ivp_samples L -> integration_completes L ->
  root_scalar_defaults L ->
  Np.arange 0 (1 + h) h = Ok x -> ends_at_one x ->
  shooting_method h =
    (do y <- Spec.shooting brentq_xtol brentq_rtol x; Ok (x, y)) /\
  (brentq_xtol <=? F64.c1e_8) = true /\
  (brentq_rtol <=? F64.c1e_8) = true /\
  (forall x' y,
     shooting_method h = Ok (x', y) ->
     x' = x /\ length y = length x /\
     x !! 0%nat = Some 0 /\ List.last x 0 = 1).
Proof.
  intros Hsam Hcom Hdef Hx Hend.
  pose proof (ends_at_one_nonempty x Hend) as Hne.
  assert (Hres : boundary_residual x = Spec.shooting_residual x).
  { apply functional_extensionality. intros alpha.
    apply residual_agrees; assumption. }
  split; [|split; [reflexivity | split; [reflexivity|]]].
  - unfold shooting_method, Spec.shooting. rewrite Hx. cbn [Py.bind].
    rewrite Hdef, Hres, bind_assoc.
    destruct (root_scalar _ _ _ _ _) as [r|e]; [|reflexivity].
    cbn [Py.bind]. unfold Spec.integrate. rewrite bind_assoc.
    destruct (solve_shooting (root r) x) as [sol|e] eqn:Hsol.
    + destruct (shooting_values x (root r) sol Hsam Hcom Hne Hsol)
        as (c & cs & Hv & _).
      unfold solve_shooting in Hsol. rewrite ode_system_rhs in Hsol.
      rewrite Hsol. cbn [Py.bind]. rewrite Hv, row_values. reflexivity.
    + unfold solve_shooting in Hsol. rewrite ode_system_rhs in Hsol.
      rewrite Hsol. reflexivity.
  - intros x' y Hxy.
    apply shooting_inv in Hxy as (Hx' & r & sol & _ & Hsol & Hrow).
    assert (x' = x) as -> by congruence.
    split; [reflexivity|]. split.
    + destruct (shooting_values x (root r) sol Hsam Hcom Hne Hsol)
        as (c & cs & Hv & Hlen).
      rewrite Hv, row_values in Hrow.
      assert (y = map fst (c :: cs)) as -> by congruence.
      rewrite length_map. exact Hlen.
    + destruct Hend as (pre & Hpre & _). split.
      * apply (arange_first _ _ _ _ Hx Hne).
      * rewrite Hpre. apply last_last.
Qed.

End Shooting.

Lemma grid_0_1_ends_at_one :
  ends_at_one [0; F64.c0_1; 2 * F64.c0_1; 3 * F64.c0_1; 4 * F64.c0_1;
               5 * F64.c0_1; 6 * F64.c0_1; 7 * F64.c0_1; 8 * F64.c0_1;
               9 * F64.c0_1; 1].
Proof.
  exists [0; F64.c0_1; 2 * F64.c0_1; 3 * F64.c0_1; 4 * F64.c0_1;
          5 * F64.c0_1; 6 * F64.c0_1; 7 * F64.c0_1; 8 * F64.c0_1;
          9 * F64.c0_1].
  split; reflexivity.
Qed.

Lemma shooting_method_refines_witness :
  let x := [0; F64.c0_1; 2 * F64.c0_1; 3 * F64.c0_1; 4 * F64.c0_1;
            5 * F64.c0_1; 6 * F64.c0_1; 7 * F64.c0_1; 8 * F64.c0_1;
            9 * F64.c0_1; 1] in
  @shooting_method RefLib F64.c0_1 =
    (do y <- @Spec.shooting RefLib brentq_xtol brentq_rtol x; Ok (x, y)) /\
  (brentq_xtol <=? F64.c1e_8) = true /\
  (brentq_rtol <=? F64.c1e_8) = true /\
  (forall x' y,
     @shooting_method RefLib F64.c0_1 = Ok (x', y) ->
     x' = x /\ length y = length x /\
     x !! 0%nat = Some 0 /\ List.last x 0 = 1).
Proof.
  intros x.
  exact (shooting_method_refines RefLib F64.c0_1 x
           ref_samples ref_completes ref_defaults
           grid_0_1 grid_0_1_ends_at_one).
Defined.

(** C3 (counterexample).  The grid of a step need not end at 1,
    nothing clamping it.  At the step size 0.3 it ends at 1.2, beyond
    the interval of integration, and [shooting_method] ends with the
    error of the integrator.  At the step size 1/98 it has 99 points,
    none of them the point 1: the last one is the double below 1.
    There [shooting_method] returns, and its residual is defined at
    every alpha, as here at the lower end of the bracket: it is taken
    at the last grid point.  The residual of the specification, the
    y-value at x = 1 minus 2, has no value there, no sample being
    stored for the abscissa 1. *)
Lemma shooting_grid_misses_one :
  let h := 1 / F64.of_nat 98 in
  ((0 <? F64.c0_3) = true /\ (F64.c0_3 <=? 1) = true /\
   @shooting_method RefLib F64.c0_3 =
     Raise (ValueError "Values in t_eval are not within t_span.")) /\
  (0 <? h) = true /\ (h <=? 1) = true /\
  exists x y v,
    Np.arange 0 (1 + h) h = Ok x /\
    length x = 99%nat /\
    List.last x 0 = 0x1.fffffffffffffp-1 /\
    forallb (fun t => negb (t =? 1)) x = true /\
    @shooting_method RefLib h = Ok (x, y) /\
    @boundary_residual RefLib x (-10) = Ok v /\
    @Spec.shooting_residual RefLib x (-10) =
      Raise (IndexError "index out of bounds") /\
    @Spec.shooting RefLib brentq_xtol brentq_rtol x =
      Raise (IndexError "index out of bounds").
Proof.
  intros h.
  split; [split; [reflexivity | split; [reflexivity|]];
          vm_compute; reflexivity|].
  split; [reflexivity|]. split; [reflexivity|].
  eexists _, _, _.
  split; [vm_compute; reflexivity|].
  split; [reflexivity|].
  split; [reflexivity|].
  split; [vm_compute; reflexivity|].
  split; [vm_compute; reflexivity|].
  split; [vm_compute; reflexivity|].
  split; vm_compute; reflexivity.
Qed.

(** ** C4: the variational method *)

Section Variational.

Context (L : Lib).





(** The trial is 1 at x = 0 whatever the finite parameters. *)
Lemma trial_at_zero (a b c : float) :
  pow_zero L ->
  F64.finite a = true -> F64.finite b = true -> F64.finite c = true ->
  Spec.y a b c 0 = 1.
Proof.
  intros [H2 H3] Ha Hb Hc. unfold Spec.y. rewrite H2, H3.
  destruct (mul_zero_r a Ha) as [sa Hsa].
  destruct (mul_zero_r b Hb) as [sb Hsb].
  destruct (mul_zero_r c Hc) as [sc Hsc].
  rewrite (add_one_zero _ _ Hsa), (add_one_zero _ _ Hsb).
  apply (add_one_zero _ _ Hsc).
Qed.


End Variational.


(** ** The boundary values after the solve

    The first and the last equation of the system say y[0] = 1 and
    y[n] = 2, but the elimination exchanges the first row with the
    second, whose leading entry is larger, and y[0] comes out of the
    back substitution like every other unknown.  On the reference
    library at h = 0.1 it differs from 1 in the last places. *)
Remark ref_first_value_rounded :
  exists x y,
    @finite_difference_method RefLib F64.c0_1 = Ok (x, y) /\
    (nth 0 y 0 =? 1) = false /\
    (abs (nth 0 y 0 - 1) <=? 0x1p-50) = true /\
    List.last y 0 = 2.
Proof.
  eexists _, _. split; [vm_compute; reflexivity|].
  split; [|split]; reflexivity.
Qed.

(** ** The three solutions side by side

    On the reference library at h = 0.1 the shooting and the
    variational solution agree to two decimals at x = 0.5, and the
    finite-difference solution lies 0.3 below them: the rows of its
    system carry the term (xi+1)/(2h) with the sign opposite to the
    one the central difference of y' in [ode_system] gives. *)
Remark ref_solutions_at_half :
  exists xs ys xf yf xv yv,
    @shooting_method RefLib F64.c0_1 = Ok (xs, ys) /\
    @finite_difference_method RefLib F64.c0_1 = Ok (xf, yf) /\
    @variational_method RefLib F64.c0_1 = Ok (xv, yv) /\
    nth 5 xf 0 = 0.5 /\
    (abs (nth 5 ys 0 - nth 5 yv 0) <? 0x1p-6) = true /\
    (0x1p-2 <? nth 5 ys 0 - nth 5 yf 0) = true.
Proof.
  eexists _, _, _, _, _, _.
  split; [|split; [|split]]; [vm_compute; reflexivity ..|].
  split; [|split]; reflexivity.
Qed.

(* ================================================================== *)
(** * Further properties of the script *)

(** ** The linear system on short grids and for a vanishing square *)

Lemma fd_system_entries_witness :
  @fd_system RefLib 0.25 [0; 0.25; 0.5; 0.75; 1] =
    Ok (@Spec.fd_matrix RefLib 0.25 [0; 0.25; 0.5; 0.75; 1],
        @Spec.fd_vector RefLib [0; 0.25; 0.5; 0.75; 1]).
Proof.
  apply (fd_system_entries RefLib 0.25 [0; 0.25; 0.5; 0.75; 1]).
  - simpl. lia.
  - reflexivity.
Defined.

Section Degenerate.

Context (L : Lib).

(** X3.  The grids of fewer than three points, for every step: on an
    empty grid the first assignment [A[0, 0] = 1] raises IndexError;
    on a single point the second boundary condition overwrites the
    first, leaving the system A = [[1]], b = [2]; on two points the
    loop does not run and the system is the identity with right-hand
    side [1, 2], whatever h and the points are. *)
Theorem fd_short_grids (h : float) :
  fd_system h [] = Raise (IndexError "index out of bounds") /\
  (Np.arange 0 (1 + h) h = Ok [] ->
   finite_difference_method h = Raise (IndexError "index out of bounds")) /\
  (forall x0, fd_system h [x0] = Ok ([[1]], [2])) /\
  (forall x0 x1, fd_system h [x0; x1] = Ok ([[1; 0]; [0; 1]], [1; 2])).
Proof.
  split; [reflexivity|]. split; [|split; intros; reflexivity].
  intros Hx. unfold finite_difference_method. rewrite Hx. reflexivity.
Qed.

End Degenerate.

(** ** The table *)

Lemma getitem_beyond {A} (l : list A) (i : nat) :
  (length l <= i)%nat ->
  Py.getitem l (Z.of_nat i) = Raise (IndexError "index out of bounds").
Proof.
  intros Hi. unfold Py.getitem, Py.index.
  replace ((0 <=? Z.of_nat i)%Z && (Z.of_nat i <? Z.of_nat (length l))%Z)
    with false
    by (symmetry; apply andb_false_iff; right; apply Z.ltb_ge; lia).
  replace ((- Z.of_nat (length l) <=? Z.of_nat i)%Z && (Z.of_nat i <? 0)%Z)
    with false
    by (symmetry; apply andb_false_iff; right; apply Z.ltb_ge; lia).
  reflexivity.
Qed.

Section Table.

Variables x a b c : list float.

Let n := length x.
Let k := rows_available x a b c.

Lemma print_row_ok (i : nat) (tr : list Io.event) :
  (i < k)%nat ->
  print_row x a b c i tr = (tr ++ [table_row x a b c i], Ok tt).
Proof.
  unfold k, rows_available. intros Hi. unfold print_row.
  unfold Io.bind, Io.lift.
  rewrite (getitem_nat x i 0), (getitem_nat a i 0), (getitem_nat b i 0),
    (getitem_nat c i 0) by lia.
  reflexivity.
Qed.

Lemma print_row_fails (tr : list Io.event) :
  (k < n)%nat ->
  print_row x a b c k tr = (tr, Raise (IndexError "index out of bounds")).
Proof.
  unfold n. intros Hk. unfold print_row, Io.bind, Io.lift.
  rewrite (getitem_nat x k 0) by lia.
  destruct (Nat.le_gt_cases (length a) k) as [Ha|Ha].
  { rewrite (getitem_beyond a k Ha). reflexivity. }
  rewrite (getitem_nat a k 0 Ha).
  destruct (Nat.le_gt_cases (length b) k) as [Hb|Hb].
  { rewrite (getitem_beyond b k Hb). reflexivity. }
  rewrite (getitem_nat b k 0 Hb).
  assert (Hc : (length c <= k)%nat).
  { unfold k, rows_available in *. lia. }
  rewrite (getitem_beyond c k Hc). reflexivity.
Qed.

Lemma print_rows_from (len s : nat) (tr : list Io.event) :
  (s + len = n)%nat -> (s <= k)%nat ->
  Io.for_each (print_row x a b c) (seq s len) tr =
    (tr ++ map (table_row x a b c) (seq s (k - s)),
     if Nat.eqb k n then Ok tt
     else Raise (IndexError "index out of bounds")).
Proof.
  assert (Hkn : (k <= n)%nat) by (unfold k, n, rows_available; lia).
  revert s tr. induction len as [|len IH]; intros s tr Hlen Hs.
  - replace (k - s)%nat with 0%nat by lia.
    replace k with n by lia. rewrite Nat.eqb_refl.
    cbn. rewrite app_nil_r. reflexivity.
  - cbn [seq Io.for_each]. unfold Io.bind at 1.
    destruct (Nat.eq_dec s k) as [->|Hne].
    + rewrite print_row_fails by lia.
      replace (k - k)%nat with 0%nat by lia.
      destruct (Nat.eqb_spec k n); [lia|].
      cbn. rewrite app_nil_r. reflexivity.
    + rewrite print_row_ok by lia.
      rewrite IH by lia.
      replace (k - s)%nat with (S (k - S s)) by lia.
      cbn [seq map]. rewrite <- app_assoc. reflexivity.
Qed.

(** X4.  The loop that prints the table runs over the indices of
    x_fd and reads the other three columns at each one.  After the two
    header lines it prints a row for every index at which all four
    columns have a value, in order; if a column is shorter than x_fd
    it then stops with IndexError, the rows printed so far staying on
    the console, and otherwise it ends normally. *)
Theorem table_printed :
  Io.run (print_results x a b c) =
    ([Io.PrintHeader; Io.PrintRule]
       ++ map (table_row x a b c) (seq 0 (rows_available x a b c)),
     if Nat.eqb (rows_available x a b c) (length x) then Ok tt
     else Raise (IndexError "index out of bounds")).
Proof.
  unfold Io.run, print_results. unfold Io.bind at 1. cbn [Io.emit app].
  unfold Io.bind at 1. cbn [Io.emit app]. unfold Py.range.
  rewrite (print_rows_from (length x - 0) 0) by (unfold n; lia).
  fold k. rewrite Nat.sub_0_r. reflexivity.
Qed.

End Table.

(** ** Output only after all three solvers *)

Lemma appends_emit (e : Io.event) : appends (Io.emit e).
Proof. intros tr. exists [e]. reflexivity. Qed.

Lemma appends_lift {A} (r : result A) : appends (Io.lift r).
Proof. intros tr. exists []. cbn. rewrite app_nil_r. reflexivity. Qed.

Lemma appends_bind {A B} (m : Io.io A) (f : A -> Io.io B) :
  appends m -> (forall v, appends (f v)) -> appends (Io.bind m f).
Proof.
  intros Hm Hf tr. unfold Io.bind.
  destruct (Hm tr) as [out Hout]. destruct (m tr) as [tr' [v|e]].
  - cbn in Hout. subst tr'. destruct (Hf v (tr ++ out)) as [out' Hout'].
    exists (out ++ out'). rewrite Hout', app_assoc. reflexivity.
  - exists out. exact Hout.
Qed.

Lemma appends_plot (x y : list float) (fmt label : string) :
  appends (Io.plot x y fmt label).
Proof.
  unfold Io.plot. destruct (Nat.eqb _ _);
    [apply appends_emit | apply appends_lift].
Qed.

Section Output.

Context (L : Lib).

(** What follows the table only adds to it. *)
Lemma figure_appends (xs ys xf yf xv yv : list float) :
  appends
    (exec _ <- Io.emit Io.Figure;
     exec _ <- Io.plot xs ys "b.-" "Shooting Method";
     exec _ <- Io.plot xf yf "r.--" "Finite Difference";
     exec _ <- Io.plot xv yv "g-" "Variational Method";
     exec _ <- Io.emit (Io.XLabel "x");
     exec _ <- Io.emit (Io.YLabel "y(x)");
     exec _ <- Io.emit (Io.Title "Comparison of Numerical Methods");
     exec _ <- Io.emit Io.Legend;
     exec _ <- Io.emit Io.Grid;
     Io.emit Io.Show).
Proof.
  repeat (apply appends_bind; [first [apply appends_emit | apply appends_plot]
                              | intros _]).
  apply appends_emit.
Qed.

(** X5.  The script calls the three solvers before it prints
    anything.  If one of them raises, the run ends with the exception
    of the first that did, in the order shooting, finite differences,
    variational, and the output is empty: no table of the solvers that
    succeeded, no figure.  If all three return, the output starts with
    the two header lines. *)
Theorem output_all_or_nothing (h : float) :
  (forall e, solvers h = Raise e -> Io.run (main h) = ([], Raise e)) /\
  (forall r, solvers h = Ok r ->
     exists out,
       fst (Io.run (main h)) = Io.PrintHeader :: Io.PrintRule :: out).
Proof.
  unfold solvers, Io.run, main. split.
  - intros e He. unfold Io.bind at 1. unfold Io.lift at 1.
    destruct (shooting_method h) as [[xs ys]|e1]; cbn [Py.bind] in He;
      [|congruence].
    unfold Io.bind at 1. unfold Io.lift at 1.
    destruct (finite_difference_method h) as [[xf yf]|e2];
      cbn [Py.bind] in He; [|congruence].
    unfold Io.bind at 1. unfold Io.lift at 1.
    destruct (variational_method h) as [[xv yv]|e3];
      cbn [Py.bind] in He; congruence.
  - intros r Hr. unfold Io.bind at 1. unfold Io.lift at 1.
    destruct (shooting_method h) as [[xs ys]|e1]; cbn [Py.bind] in Hr;
      [|discriminate].
    unfold Io.bind at 1. unfold Io.lift at 1.
    destruct (finite_difference_method h) as [[xf yf]|e2];
      cbn [Py.bind] in Hr; [|discriminate].
    unfold Io.bind at 1. unfold Io.lift at 1.
    destruct (variational_method h) as [[xv yv]|e3];
      cbn [Py.bind] in Hr; [|discriminate].
    unfold Io.bind at 1.
    unfold print_results. unfold Io.bind at 1. cbn [Io.emit app].
    unfold Io.bind at 1. cbn [Io.emit app]. unfold Py.range.
    rewrite (print_rows_from xf ys yf yv (length xf - 0) 0) by lia.
    rewrite Nat.sub_0_r.
    destruct (Nat.eqb _ _).
    + destruct (figure_appends xs ys xf yf xv yv
                  ([Io.PrintHeader; Io.PrintRule]
                     ++ map (table_row xf ys yf yv)
                          (seq 0 (rows_available xf ys yf yv))))
        as [out Hout].
      rewrite Hout. eexists. reflexivity.
    + eexists. reflexivity.
Qed.

End Output.

Lemma output_all_or_nothing_witness :
  Io.run (@main RefLib F64.c0_3) =
    ([], Raise (ValueError "Values in t_eval are not within t_span.")).
Proof.
  apply (proj1 (output_all_or_nothing RefLib F64.c0_3)).
  vm_compute. reflexivity.
Defined.

(** ** The ends of the solution vectors *)

Lemma last_map_snoc {A} (f : float -> A) (pre : list float) (t : float)
    (d : A) :
  List.last (map f (pre ++ [t])) d = f t.
Proof. rewrite map_app. cbn [map]. apply last_last. Qed.

Section Ends.

Context (L : Lib).

(** X6.  The first value of the variational solution is exactly 1
    whatever the minimizer found, as long as the three parameters it
    reports are finite and the grid is not empty: the grid starts at 0
    for every step, and the trial is 1 there.  The solution has one
    value per grid point.  (0 ** 2 and 0 ** 3 are taken to be 0.) *)
Theorem variational_starts_at_one (h : float) (x y : list float)
    (res : OptimizeResult) (a b c : float) :
  pow_zero L ->
  variational_method h = Ok (x, y) ->
  minimize (residual_squared x) [0; 0; 0] cons = Ok res ->
  opt_x res = [a; b; c] ->
  F64.finite a = true -> F64.finite b = true -> F64.finite c = true ->
  x <> [] ->
  y !! 0%nat = Some 1 /\ length y = length x.
Proof.
  intros Hpow Hv Hm Hp Ha Hb Hc Hne.
  apply variational_inv in Hv
    as (Hx & res' & a' & b' & c' & Hm' & Hp' & ->).
  assert (res' = res) as -> by congruence.
  assert (a' = a /\ b' = b /\ c' = c) as (-> & -> & ->)
    by (rewrite Hp in Hp'; injection Hp' as <- <- <-; auto).
  split; [|apply length_map].
  rewrite lookup_map, (arange_first _ _ _ _ Hx Hne). cbn [option_map].
  f_equal. apply (trial_at_zero L a b c Hpow Ha Hb Hc).
Qed.

(** X7.  On a grid that ends at 1, the last value of the variational
    solution minus 2 is the value of the constraint function at the
    parameters the minimizer reports: the distance of y(1) from 2 in
    the output is exactly the constraint violation the minimizer
    left. *)
Theorem variational_end_is_constraint (h : float) (x y : list float)
    (res : OptimizeResult) :
  ends_at_one x ->
  variational_method h = Ok (x, y) ->
  minimize (residual_squared x) [0; 0; 0] cons = Ok res ->
  c_fun cons (opt_x res) = Ok (List.last y 0 - 2).
Proof.
  intros (pre & -> & _) Hv Hm.
  apply variational_inv in Hv
    as (Hx & res' & a & b & c & Hm' & Hp & ->).
  assert (res' = res) as -> by congruence.
  rewrite Hp, last_map_snoc. reflexivity.
Qed.

(** An integration that stored no value leaves no array to index:
    the residual raises TypeError at [sol.y[0, -1]]. *)
Remark residual_without_values (x : list float) (alpha : float)
    (sol : OdeResult) :
  solve_shooting alpha x = Ok sol -> ode_y sol = no_values ->
  boundary_residual x alpha =
    Raise (TypeError "list indices must be integers or slices, not tuple").
Proof.
  intros Hsol Hv. unfold boundary_residual. rewrite Hsol. cbn [Py.bind].
  rewrite Hv. reflexivity.
Qed.

(** X8.  The vector that [shooting_method] returns is never empty,
    and its last value minus 2 is the boundary residual at the root
    that the root finder returned: the vector comes from the same
    integration as the residual, so the distance of its end from 2 is
    the residual the root finder stopped at. *)
Theorem shooting_end_is_residual (h : float) (x y : list float) :
  shooting_method h = Ok (x, y) ->
  y <> [] /\
  exists r,
    root_scalar (boundary_residual x) (-10, 10) brentq None None = Ok r /\
    boundary_residual x (root r) = Ok (List.last y 0 - 2).
Proof.
  intros Hs. apply shooting_inv in Hs as (_ & r & sol & Hr & Hsol & Hrow).
  apply row_inv in Hrow as (c & cs & Hv & ->).
  split; [discriminate|].
  exists r. split; [exact Hr|].
  unfold boundary_residual. rewrite Hsol. cbn [Py.bind].
  rewrite Hv, entry_values. reflexivity.
Qed.

End Ends.

(** The minimizer of the reference library at h = 0.1. *)
Lemma ref_minimum_0_1 :
  exists x y res a b c,
    @variational_method RefLib F64.c0_1 = Ok (x, y) /\
    @minimize RefLib (@residual_squared RefLib x) [0; 0; 0] (@cons RefLib)
      = Ok res /\
    opt_x res = [a; b; c] /\
    F64.finite a = true /\ F64.finite b = true /\ F64.finite c = true /\
    x <> [] /\ ends_at_one x.
Proof.
  eexists _, _, _, _, _, _.
  split; [vm_compute; reflexivity|].
  split; [vm_compute; reflexivity|].
  split; [reflexivity|].
  split; [reflexivity|]. split; [reflexivity|]. split; [reflexivity|].
  split; [discriminate | exact grid_0_1_ends_at_one].
Qed.

Lemma variational_starts_at_one_witness :
  exists x y,
    @variational_method RefLib F64.c0_1 = Ok (x, y) /\
    y !! 0%nat = Some 1 /\ length y = length x.
Proof.
  destruct ref_minimum_0_1
    as (x & y & res & a & b & c & Hv & Hm & Hp & Ha & Hb & Hc & Hne & _).
  exists x, y. split; [exact Hv|].
  apply (variational_starts_at_one RefLib F64.c0_1 x y res a b c);
    try assumption.
  split; reflexivity.
Defined.

Lemma variational_end_is_constraint_witness :
  exists x y res,
    @variational_method RefLib F64.c0_1 = Ok (x, y) /\
    c_fun (@cons RefLib) (opt_x res) = Ok (List.last y 0 - 2).
Proof.
  destruct ref_minimum_0_1
    as (x & y & res & a & b & c & Hv & Hm & _ & _ & _ & _ & _ & Hend).
  exists x, y, res. split; [exact Hv|].
  exact (variational_end_is_constraint RefLib F64.c0_1 x y res Hend Hv Hm).
Defined.

Lemma shooting_end_is_residual_witness :
  exists x y,
    @shooting_method RefLib F64.c0_1 = Ok (x, y) /\
    y <> [] /\
    exists r,
      @root_scalar RefLib (@boundary_residual RefLib x) (-10, 10) brentq
        None None = Ok r /\
      @boundary_residual RefLib x (root r) = Ok (List.last y 0 - 2).
Proof.
  destruct ref_results_0_1 as (xs & ys & _ & _ & _ & _ & Hs & _).
  exists xs, ys. split; [exact Hs|].
  exact (shooting_end_is_residual RefLib F64.c0_1 xs ys Hs).
Defined.

(** ** Step sizes 1/n *)

(** X9.  Among the step sizes h = 1/n for n = 1, ..., 100 (h computed
    in binary64), the grid np.arange(0, 1 + h, h) has n + 1 points and
    ends exactly at 1 for 82 of them, the script's n = 10 among them.
    For seventeen values of n the rounded quotient (1 + h)/h lies above
    n + 1 and the grid has one point more, beyond 1; for n = 98 the
    grid has n + 1 points and its last point is below 1. *)
Theorem unit_fraction_grids :
  filter (is_end ends_beyond) (seq 1 100) =
    [6; 9; 21; 24; 28; 29; 30; 38; 46; 49; 54; 57; 73; 81; 87; 94; 96]%nat /\
  filter (is_end ends_short) (seq 1 100) = [98%nat] /\
  filter (is_end ends_other) (seq 1 100) = [] /\
  length (filter (is_end ends_exact) (seq 1 100)) = 82%nat /\
  grid_end_of 10 = ends_exact.
Proof.
  split; [|split; [|split; [|split]]]; vm_compute; reflexivity.
Qed.
